(** * Drop-target resolution of [useDroppableCollectionState], and the
      resizable column header guard of [TableView]

    A shallow embedding of

    - [useDroppableCollectionState] (the second document of
      [packages/@react-spectrum/table/src/TableView.tsx]): the functions
      [getOppositeTarget], [defaultGetDropOperation], [setTarget],
      [isDropTarget], [getDropOperation] and [isEqualDropTarget];
    - the configuration guard at the top of [ResizableTableColumnHeader]
      (first document of the same file);
    - of the same first document: [getDefaultWidth], the options handed to
      [TableLayout], [renderView], the column menu of
      [ResizableTableColumnHeader], [onVisibleRectChange] of [TableView] and
      of [TableVirtualizer], and the loop that places the resizer;
    - [useDraggableItem] of [packages/@react-aria/dnd/src/useDraggableItem.ts],
      from the result of [useDrag] on.

    JavaScript values are modelled as follows.  A value that may be [null]
    or [undefined] is an [option]; the code only ever tests such values with
    [!v], [v != null], [v && ...] or [v?.f], none of which tells [null] from
    [undefined], so [None] stands for either.  A host callback that the hook
    merely tests for presence, or calls for its effect, is a value of an
    abstract type [Handler]; calling it is recorded in a call log. *)

From Stdlib Require Import ZArith String List Bool.
From stdpp Require Import base decidable option countable gmap strings list.

Local Open Scope string_scope.
Local Open Scope list_scope.

(* ===================================================================== *)
(** ** Types imported from [@react-types/shared] and [react]             *)
(* ===================================================================== *)

Module Shared.

(** Modelled from the spec: React's [Key] type ([string | number]), whose
    declaration is not part of the sources.  Numeric keys are integers, so
    that [===] and [Set.prototype.has] agree with Leibniz equality. *)
Inductive Key : Type :=
| KeyString (s : string)
| KeyNumber (n : Z).

#[global] Instance Key_eq_dec : EqDecision Key.
Proof. solve_decision. Defined.

#[global] Instance Key_countable : Countable Key.
Proof.
  refine (inj_countable'
            (fun k => match k with KeyString s => inl s | KeyNumber n => inr n end)
            (fun x => match x with inl s => KeyString s | inr n => KeyNumber n end) _).
  by intros [].
Defined.

(** Modelled from the spec: [DropPosition], the three positions an item
    target may carry ([dropPosition] ∈ {before, after, on}). *)
Inductive DropPosition : Type := before | after | on.

#[global] Instance DropPosition_eq_dec : EqDecision DropPosition.
Proof. solve_decision. Defined.

(** Modelled from the spec: [DropOperation], the operation kinds a drag
    source may allow together with the sentinel [cancel]. *)
Inductive DropOperation : Type := copy | link | move | cancel.

#[global] Instance DropOperation_eq_dec : EqDecision DropOperation.
Proof. solve_decision. Defined.

(** The [type] tag of a drop target. *)
Inductive TargetType : Type := root | item.

#[global] Instance TargetType_eq_dec : EqDecision TargetType.
Proof. solve_decision. Defined.

(** Modelled from the spec: [ItemDropTarget], [{type: 'item', key,
    dropPosition}]. *)
Record ItemDropTarget : Type := {
  key : Key;
  dropPosition : DropPosition
}.

#[global] Instance ItemDropTarget_eq_dec : EqDecision ItemDropTarget.
Proof. solve_decision. Defined.

(** Modelled from the spec: [DropTarget], the tagged variant
    [RootDropTarget | ItemDropTarget].  A root target carries no key and no
    position. *)
Inductive DropTarget : Type :=
| RootDropTarget
| ItemTarget (i : ItemDropTarget).

#[global] Instance DropTarget_eq_dec : EqDecision DropTarget.
Proof. solve_decision. Defined.

(** [t.type] *)
Definition type (t : DropTarget) : TargetType :=
  match t with
  | RootDropTarget => root
  | ItemTarget _ => item
  end.

(** [t?.type], [t?.key] and [t?.dropPosition] on a possibly absent target;
    reading [key] or [dropPosition] off a root target gives [undefined]. *)
Definition type_opt (t : option DropTarget) : option TargetType :=
  type <$> t.

Definition key_opt (t : option DropTarget) : option Key :=
  match t with
  | Some (ItemTarget i) => Some (key i)
  | _ => None
  end.

Definition dropPosition_opt (t : option DropTarget) : option DropPosition :=
  match t with
  | Some (ItemTarget i) => Some (dropPosition i)
  | _ => None
  end.

(** Modelled from the spec: [DragTypes], the type tags carried by a drag,
    seen through its only method [has]. *)
Record DragTypes : Type := {
  has : string -> bool
}.

(** The drag types given by a finite set of tags. *)
Definition dragTypesOf (tags : gset string) : DragTypes :=
  {| has := fun tag => bool_decide (tag ∈ tags) |}.

(** Modelled from the spec: the [acceptedDragTypes] option, ['all'] or an
    array of type tags. *)
Inductive AcceptedDragTypes : Type :=
| All
| Types (tags : list string).

(** Modelled from the spec: [Collection], seen through its neighbour
    traversal [getKeyBefore] and [getKeyAfter] ([key | null]). *)
Record Collection : Type := {
  getKeyBefore : Key -> option Key;
  getKeyAfter : Key -> option Key
}.

(** The event passed to [onDropEnter] and [onDropExit]:
    [{type, x, y, target}]. *)
Inductive DropEventType : Type := dropenter | dropexit.

Record DropEvent : Type := {
  ev_type : DropEventType;
  ev_x : Z;
  ev_y : Z;
  ev_target : DropTarget
}.

(** JavaScript truthiness of an optional callback or object. *)
Definition truthy {A : Type} (v : option A) : bool :=
  match v with
  | Some _ => true
  | None => false
  end.

End Shared.

Export Shared.

(* ===================================================================== *)
(** ** [useDroppableCollectionState]                                     *)
(* ===================================================================== *)

(** [DropOperationEvent], the argument of [getDropOperation]. *)
Module DropOperationEvent.

Record t : Type := {
  target : DropTarget;
  types : DragTypes;
  allowedOperations : list DropOperation;
  isInternal : bool;
  draggingKeys : gset Key
}.

End DropOperationEvent.

(** [DroppableCollectionStateOptions], the props of the hook.  The
    [selectionManager] is handed through untouched and is left out. *)
Module Props.

Record t {Handler : Type} : Type := {
  acceptedDragTypes : option AcceptedDragTypes;
  onInsert : option Handler;
  onRootDrop : option Handler;
  onItemDrop : option Handler;
  onReorder : option Handler;
  shouldAcceptItemDrop : option (ItemDropTarget -> DragTypes -> bool);
  collection : Collection;
  onDropEnter : option Handler;
  onDropExit : option Handler;
  getDropOperation :
    option (DropTarget -> DragTypes -> list DropOperation -> DropOperation);
  onDrop : option Handler
}.

Arguments t : clear implicits.

End Props.

Module DroppableCollectionState.

(** A call of a host callback with its event. *)
Inductive HostCall (Handler : Type) : Type :=
| Call (h : Handler) (e : DropEvent).

Arguments Call {Handler} h e.

(** What one hook instance holds: the [useState] cell [target], the
    [useRef] cell [targetRef.current], and the host callbacks called so far,
    oldest first. *)
Record Store {Handler : Type} : Type := {
  target : option DropTarget;
  targetRef : option DropTarget;
  calls : list (HostCall Handler)
}.

Arguments Store : clear implicits.

(** The store of a freshly mounted hook. *)
Definition initialStore {Handler : Type} : Store Handler :=
  {| target := None; targetRef := None; calls := [] |}.

(** [isEqualDropTarget(a, b)] *)
Definition isEqualDropTarget (a b : option DropTarget) : bool :=
  match a with
  | None => negb (truthy b)
  | Some RootDropTarget => bool_decide (type_opt b = Some root)
  | Some (ItemTarget ia) =>
      bool_decide (type_opt b = Some item)
      && bool_decide (key_opt b = Some (key ia))
      && bool_decide (dropPosition_opt b = Some (dropPosition ia))
  end.

(** [getOppositeTarget(target)]; a target whose position is [on] falls off
    the end of the function ([undefined]). *)
Definition getOppositeTarget (collection : Collection) (target : ItemDropTarget)
  : option ItemDropTarget :=
  match dropPosition target with
  | before =>
      match getKeyBefore collection (key target) with
      | Some key => Some {| key := key; dropPosition := after |}
      | None => None
      end
  | after =>
      match getKeyAfter collection (key target) with
      | Some key => Some {| key := key; dropPosition := before |}
      | None => None
      end
  | on => None
  end.

(** The condition of the outer [if] of [defaultGetDropOperation]:
    [acceptedDragTypes === 'all' || acceptedDragTypes.some(type => types.has(type))]. *)
Definition acceptsTypes (acceptedDragTypes : AcceptedDragTypes) (types : DragTypes) : bool :=
  match acceptedDragTypes with
  | All => true
  | Types tags => existsb (fun type => has types type) tags
  end.

(** [target.dropPosition === 'before' || target.dropPosition === 'after'] *)
Definition beforeOrAfter (target : DropTarget) : bool :=
  bool_decide (dropPosition_opt (Some target) = Some before)
  || bool_decide (dropPosition_opt (Some target) = Some after).

(** [defaultGetDropOperation(e)].  The result is [None] when the function
    returns [undefined]. *)
Definition defaultGetDropOperation {Handler : Type} (props : Props.t Handler)
    (e : DropOperationEvent.t) : option DropOperation :=
  let acceptedDragTypes := default All (Props.acceptedDragTypes props) in
  let target := DropOperationEvent.target e in
  let types := DropOperationEvent.types e in
  let allowedOperations := DropOperationEvent.allowedOperations e in
  let isInternal := DropOperationEvent.isInternal e in
  let draggingKeys := DropOperationEvent.draggingKeys e in
  if acceptsTypes acceptedDragTypes types then
    let isValidInsert :=
      truthy (Props.onInsert props)
      && bool_decide (type target = item)
      && negb isInternal
      && beforeOrAfter target in
    let isValidReorder :=
      truthy (Props.onReorder props)
      && bool_decide (type target = item)
      && isInternal
      && beforeOrAfter target in
    let isValidRootDrop :=
      truthy (Props.onRootDrop props)
      && bool_decide (type target = root)
      && negb isInternal in
    let isValidOnItemDrop :=
      truthy (Props.onItemDrop props)
      && match target with
         | ItemTarget it =>
             bool_decide (dropPosition it = on)
             && negb (isInternal && bool_decide (key it ∈ draggingKeys))
             && match Props.shouldAcceptItemDrop props with
                | None => true
                | Some shouldAcceptItemDrop => shouldAcceptItemDrop it types
                end
         | RootDropTarget => false
         end in
    if truthy (Props.onDrop props)
       || isValidInsert || isValidReorder || isValidRootDrop || isValidOnItemDrop
    then
      match Props.getDropOperation props with
      | Some getDropOperation => Some (getDropOperation target types allowedOperations)
      | None => allowedOperations !! 0%nat
      end
    else Some cancel
  else Some cancel.

(** The [getDropOperation(e)] method of the returned state. *)
Definition getDropOperation {Handler : Type} (props : Props.t Handler)
    (e : DropOperationEvent.t) : option DropOperation :=
  defaultGetDropOperation props e.

(** The [isDropTarget(dropTarget)] method. *)
Definition isDropTarget {Handler : Type} (props : Props.t Handler)
    (w : Store Handler) (dropTarget : option DropTarget) : bool :=
  let target := targetRef w in
  if isEqualDropTarget dropTarget target then true
  else
    match dropTarget, target with
    | Some (ItemTarget d), Some (ItemTarget t) =>
        if negb (bool_decide (key d = key t))
           && negb (bool_decide (dropPosition d = dropPosition t))
           && negb (bool_decide (dropPosition d = on))
           && negb (bool_decide (dropPosition t = on))
        then
          isEqualDropTarget
            (ItemTarget <$> getOppositeTarget (Props.collection props) d) target
          || isEqualDropTarget
               dropTarget (ItemTarget <$> getOppositeTarget (Props.collection props) t)
        else false
    | _, _ => false
    end.

(** Calling a host callback appends the call to the log. *)
Definition invoke {Handler : Type} (h : Handler) (e : DropEvent)
    (w : Store Handler) : Store Handler :=
  {| target := target w; targetRef := targetRef w; calls := calls w ++ [Call h e] |}.

(** The [useState] setter and the assignment to [targetRef.current]. *)
Definition setTargetState {Handler : Type} (t : option DropTarget)
    (w : Store Handler) : Store Handler :=
  {| target := t; targetRef := targetRef w; calls := calls w |}.

Definition setTargetRef {Handler : Type} (t : option DropTarget)
    (w : Store Handler) : Store Handler :=
  {| target := target w; targetRef := t; calls := calls w |}.

(** The [setTarget(newTarget)] method. *)
Definition setTarget {Handler : Type} (props : Props.t Handler)
    (newTarget : option DropTarget) (w : Store Handler) : Store Handler :=
  if isDropTarget props w newTarget then w
  else
    let target := targetRef w in
    let w1 :=
      match target, Props.onDropExit props with
      | Some target, Some onDropExit =>
          invoke onDropExit
            {| ev_type := dropexit; ev_x := 0; ev_y := 0; ev_target := target |} w
      | _, _ => w
      end in
    let w2 :=
      match newTarget, Props.onDropEnter props with
      | Some newTarget, Some onDropEnter =>
          invoke onDropEnter
            {| ev_type := dropenter; ev_x := 0; ev_y := 0; ev_target := newTarget |} w1
      | _, _ => w1
      end in
    setTargetRef newTarget (setTargetState newTarget w2).

End DroppableCollectionState.

(* ===================================================================== *)
(** ** [ResizableTableColumnHeader]                                      *)
(* ===================================================================== *)

Module TableView.

(** Modelled from the spec: the column size of [SpectrumColumnProps]
    ([number | string]); numeric sizes are integers. *)
Inductive ColumnSize : Type :=
| SizeNumber (n : Z)
| SizeString (s : string).

(** The props of a column that the guard reads. *)
Record SpectrumColumnProps : Type := {
  width : option ColumnSize;
  defaultWidth : option ColumnSize;
  allowsResizing : option bool
}.

(** JavaScript truthiness of [columnProps.width]: [undefined], [0] and the
    empty string are falsy. *)
Definition truthyWidth (w : option ColumnSize) : bool :=
  match w with
  | None => false
  | Some (SizeNumber n) => negb (n =? 0)%Z
  | Some (SizeString s) => negb (String.eqb s "")
  end.

(** JavaScript truthiness of [columnProps.allowsResizing]. *)
Definition truthyFlag (b : option bool) : bool := default false b.

Definition controlledResizeError : string :=
  "Controlled state is not yet supported with column resizing. Please use defaultWidth for uncontrolled column resizing or remove the allowsResizing prop.".

(** [ResizableTableColumnHeader(props)] up to its guard: [inl msg] when it
    throws [new Error(msg)], [inr] of the rendered header otherwise.  The
    rendering that follows the guard is the parameter [render]. *)
Definition ResizableTableColumnHeader {Rendered : Type}
    (render : SpectrumColumnProps -> Rendered) (columnProps : SpectrumColumnProps)
  : string + Rendered :=
  if truthyWidth (width columnProps) && truthyFlag (allowsResizing columnProps)
  then inl controlledResizeError
  else inr (render columnProps).

End TableView.

(* ===================================================================== *)
(** ** [TableView]: default widths, layout options, views and menus      *)
(* ===================================================================== *)

Module TableParts.

Import TableView.

(** The provider's [scale] and the table's [density] and [overflowMode]. *)
Inductive Scale : Type := medium | large.
Inductive Density : Type := compact | regular | spacious.
Inductive OverflowMode : Type := wrap | truncate.

#[global] Instance OverflowMode_eq_dec : EqDecision OverflowMode.
Proof. solve_decision. Defined.

Definition DEFAULT_HEADER_HEIGHT (scale : Scale) : Z :=
  match scale with medium => 34 | large => 40 end.

Definition DEFAULT_HIDE_HEADER_CELL_WIDTH (scale : Scale) : Z :=
  match scale with medium => 36 | large => 44 end.

Definition ROW_HEIGHTS (density : Density) (scale : Scale) : Z :=
  match density, scale with
  | compact, medium => 32
  | compact, large => 40
  | regular, medium => 40
  | regular, large => 50
  | spacious, medium => 48
  | spacious, large => 60
  end.

Definition SELECTION_CELL_DEFAULT_WIDTH (scale : Scale) : Z :=
  match scale with medium => 38 | large => 48 end.

(** The argument of [getDefaultWidth]: [{hideHeader, isSelectionCell,
    showDivider}], each possibly [undefined]. *)
Record ColumnFlags : Type := {
  hideHeader : option bool;
  isSelectionCell : option bool;
  showDivider : option bool
}.

(** [getDefaultWidth(column)] of [TableView]; [None] when the function
    falls off its end. *)
Definition getDefaultWidth (scale : Scale) (column : ColumnFlags) : option Z :=
  if truthyFlag (hideHeader column) then
    let width := DEFAULT_HIDE_HEADER_CELL_WIDTH scale in
    Some (if truthyFlag (showDivider column) then width + 1 else width)%Z
  else if truthyFlag (isSelectionCell column) then
    Some (SELECTION_CELL_DEFAULT_WIDTH scale)
  else None.

(** The options object handed to [new TableLayout(...)]. *)
Record TableLayoutOptions : Type := {
  rowHeight : option Z;
  estimatedRowHeight : option Z;
  headingHeight : option Z;
  estimatedHeadingHeight : option Z
}.

(** The options computed inside [useMemo] from [props.overflowMode], the
    [scale] and [density = props.density || 'regular']. *)
Definition layoutOptions (overflowMode : option OverflowMode)
    (density : option Density) (scale : Scale) : TableLayoutOptions :=
  let density := default regular density in
  let wraps := bool_decide (overflowMode = Some wrap) in
  {| rowHeight := if wraps then None else Some (ROW_HEIGHTS density scale);
     estimatedRowHeight := if wraps then Some (ROW_HEIGHTS density scale) else None;
     headingHeight := if wraps then None else Some (DEFAULT_HEADER_HEIGHT scale);
     estimatedHeadingHeight := if wraps then Some (DEFAULT_HEADER_HEIGHT scale) else None |}.

(** The part of a [GridNode] that [renderView] reads: [index], [colspan]
    and the three flags of [item.props]. *)
Record NodeProps : Type := {
  node_isSelectionCell : option bool;
  node_hideHeader : option bool;
  node_allowsResizing : option bool
}.

Record GridNode : Type := {
  index : Z;
  colspan : option Z;
  props : NodeProps
}.

(** What [renderView] returns: [null], [undefined], or the element built.
    The loader carries the key of its localized label. *)
Inductive View (Element : Type) : Type :=
| ViewNull
| ViewUndefined
| TableCheckboxCell (cell : GridNode)
| TableCell (cell : GridNode)
| PlaceholderCell (ariaColindex : Z) (ariaColspan : option Z)
| TableSelectAllCell (column : GridNode)
| TooltipTriggerOverTableColumnHeader (column : GridNode)
| ResizableTableColumnHeaderView (column : GridNode)
| TableColumnHeader (column : GridNode)
| LoaderView (labelKey : string)
| EmptyStateView (emptyState : Element).

Arguments ViewNull {Element}.
Arguments ViewUndefined {Element}.
Arguments TableCheckboxCell {Element} cell.
Arguments TableCell {Element} cell.
Arguments PlaceholderCell {Element} ariaColindex ariaColspan.
Arguments TableSelectAllCell {Element} column.
Arguments TooltipTriggerOverTableColumnHeader {Element} column.
Arguments ResizableTableColumnHeaderView {Element} column.
Arguments TableColumnHeader {Element} column.
Arguments LoaderView {Element} labelKey.
Arguments EmptyStateView {Element} emptyState.

(** [renderView(type, item)] of [TableView].  [collectionSize] is
    [state.collection.size] and [renderEmptyState] is
    [props.renderEmptyState], whose result may be [null]. *)
Definition renderView {Element : Type} (collectionSize : Z)
    (renderEmptyState : option (unit -> option Element))
    (type : string) (node : GridNode) : View Element :=
  if bool_decide (type ∈ ["header"; "rowgroup"; "section"; "row"; "headerrow"]) then
    ViewNull
  else if bool_decide (type = "cell") then
    if truthyFlag (node_isSelectionCell (props node)) then TableCheckboxCell node
    else TableCell node
  else if bool_decide (type = "placeholder") then
    PlaceholderCell (index node + 1)
      (match colspan node with
       | Some n => if (1 <? n)%Z then Some n else None
       | None => None
       end)
  else if bool_decide (type = "column") then
    if truthyFlag (node_isSelectionCell (props node)) then TableSelectAllCell node
    else if truthyFlag (node_hideHeader (props node)) then
      TooltipTriggerOverTableColumnHeader node
    else if truthyFlag (node_allowsResizing (props node)) then
      ResizableTableColumnHeaderView node
    else TableColumnHeader node
  else if bool_decide (type = "loader") then
    LoaderView (if (0 <? collectionSize)%Z then "loadingMore" else "loading")
  else if bool_decide (type = "empty") then
    let emptyState :=
      match renderEmptyState with
      | Some render => render tt
      | None => None
      end in
    match emptyState with
    | None => ViewNull
    | Some element => EmptyStateView element
    end
  else ViewUndefined.

(** The effects of a column menu action. *)
Inductive SortDirection : Type := ascending | descending.

Inductive MenuEffect : Type :=
| Sort (column : Key) (direction : SortDirection)
| OnColumnResizeStart (column : Key)
| SetIsInResizeMode (value : bool).

(** [onMenuSelect(key)] of [ResizableTableColumnHeader], for the column
    [column]: the calls it makes, in order. *)
Definition onMenuSelect (column : Key) (key : Key) : list MenuEffect :=
  if bool_decide (key = KeyString "sort-asc") then [Sort column ascending]
  else if bool_decide (key = KeyString "sort-desc") then [Sort column descending]
  else if bool_decide (key = KeyString "resize") then
    [OnColumnResizeStart column; SetIsInResizeMode true]
  else [].

(** A menu option [{label, id}]. *)
Record MenuOption : Type := {
  label : string;
  id : string
}.

(** The [items] of the column menu; [format] is [stringFormatter.format]
    and an entry is [None] where the array holds [undefined]. *)
Definition menuItems (format : string -> string) (allowsSorting : option bool)
  : list (option MenuOption) :=
  [ if truthyFlag allowsSorting
    then Some {| label := format "sortAscending"; id := "sort-asc" |} else None;
    if truthyFlag allowsSorting
    then Some {| label := format "sortDescending"; id := "sort-desc" |} else None;
    Some {| label := format "resizeColumn"; id := "resize" |} ].

End TableParts.

(* ===================================================================== *)
(** ** [TableView] and [TableVirtualizer]: viewport and resizer position *)
(* ===================================================================== *)

Module TableScrolling.

(** A rectangle [{x, y, width, height}]; pixel measures are integers. *)
Record Rect : Type := {
  x : Z;
  y : Z;
  width : Z;
  height : Z
}.

(** The measures read off [bodyRef.current]. *)
Record BodyMetrics : Type := {
  clientWidth : Z;
  offsetWidth : Z;
  clientHeight : Z;
  offsetHeight : Z
}.

(** What [onVisibleRectChange] of [TableView] reads and writes: the
    [viewport] ref and the two scrollbar state cells. *)
Record ViewportState : Type := {
  viewport : Rect;
  isVerticalScrollbarVisible : bool;
  isHorizontalScrollbarVisible : bool
}.

(** The state of a freshly mounted table. *)
Definition initialViewport : ViewportState :=
  {| viewport := {| x := 0; y := 0; width := 0; height := 0 |};
     isVerticalScrollbarVisible := false;
     isHorizontalScrollbarVisible := false |}.

(** [onVisibleRectChange(e)] of [TableView]; [body] is [bodyRef.current]. *)
Definition onVisibleRectChange (body : option BodyMetrics) (e : Rect)
    (st : ViewportState) : ViewportState :=
  if bool_decide (width (viewport st) = width e)
     && bool_decide (height (viewport st) = height e)
  then st
  else
    match body with
    | Some b =>
        {| viewport := e;
           isVerticalScrollbarVisible := (clientWidth b + 2 <? offsetWidth b)%Z;
           isHorizontalScrollbarVisible := (clientHeight b + 2 <? offsetHeight b)%Z |}
    | None =>
        {| viewport := e;
           isVerticalScrollbarVisible := isVerticalScrollbarVisible st;
           isHorizontalScrollbarVisible := isHorizontalScrollbarVisible st |}
    end.

(** The [do ... while (key != null)] loop of [TableVirtualizer] that fills
    [keysBefore], started at [key] with the keys pushed so far.  The
    collection's [getKeyBefore] is applied to whatever [key] holds, [null]
    included.  The result is [None] when [fuel] iterations do not finish
    the loop. *)
Fixpoint keysBeforeLoop (fuel : nat) (getKeyBefore : option Key -> option Key)
    (key : option Key) (keysBefore : list (option Key)) : option (list (option Key)) :=
  match fuel with
  | O => None
  | S fuel =>
      let keysBefore := keysBefore ++ [key] in
      match getKeyBefore key with
      | Some key => keysBeforeLoop fuel getKeyBefore (Some key) keysBefore
      | None => Some keysBefore
      end
  end.

(** [keysBefore.reduce((acc, key) => acc + columnState.getColumnWidth(key), 0) - 2] *)
Definition resizerPosition (getColumnWidth : option Key -> Z)
    (keysBefore : list (option Key)) : Z :=
  (foldl (fun acc key => acc + getColumnWidth key) 0 keysBefore - 2)%Z.

(** A list of columns as the collection links them: nothing comes before
    the first one and each other one comes right after its predecessor.
    [isChain getKeyBefore prev columns] says so for [columns] placed just
    after [prev]. *)
Fixpoint isChain (getKeyBefore : option Key -> option Key) (prev : option Key)
    (columns : list Key) : Prop :=
  match columns with
  | [] => True
  | column :: rest =>
      getKeyBefore (Some column) = prev /\ isChain getKeyBefore (Some column) rest
  end.

(** The right edge of the last of [columns]: the sum of their widths. *)
Definition rightEdge (getColumnWidth : option Key -> Z) (columns : list Key) : Z :=
  foldr (fun column acc => getColumnWidth (Some column) + acc)%Z 0%Z columns.

(** The calls made by [onVisibleRectChange] of [TableVirtualizer]. *)
Inductive VirtualizerCall : Type :=
| SetTableWidth (width : Z)
| SetVisibleRect (rect : Rect)
| OnLoadMore.

(** [loadingState === 'loading' || loadingState === 'loadingMore'] *)
Definition isLoading (loadingState : option string) : bool :=
  bool_decide (loadingState = Some "loading")
  || bool_decide (loadingState = Some "loadingMore").

(** [onVisibleRectChange(rect)] of [TableVirtualizer]: the calls it makes,
    in order.  [hasOnLoadMore] tells whether [onLoadMore] is supplied and
    [contentHeight] is [state.virtualizer.contentSize.height]. *)
Definition onVirtualizerVisibleRectChange (loadingState : option string)
    (hasOnLoadMore : bool) (contentHeight : Z) (rect : Rect) : list VirtualizerCall :=
  [SetTableWidth (width rect); SetVisibleRect rect]
  ++ (if negb (isLoading loadingState) && hasOnLoadMore then
        let scrollOffset := (contentHeight - height rect * 2)%Z in
        if (scrollOffset <? y rect)%Z then [OnLoadMore] else []
      else []).

End TableScrolling.

(* ===================================================================== *)
(** ** [useDraggableItem]                                                *)
(* ===================================================================== *)

Module DraggableItem.

(** The modality returned by [useDragModality]: the three keys of the
    [MESSAGES] table. *)
Inductive DragModality : Type := keyboard | touch | virtual.

#[global] Instance DragModality_eq_dec : EqDecision DragModality.
Proof. solve_decision. Defined.

(** [MESSAGES[modality][isSelected ? 'selected' : 'notSelected']] *)
Definition MESSAGES (modality : DragModality) (isSelected : bool) : string :=
  match modality, isSelected with
  | keyboard, true => "dragSelectedKeyboard"
  | keyboard, false => "dragDescriptionKeyboard"
  | touch, true => "dragSelectedLongPress"
  | touch, false => "dragDescriptionLongPress"
  | virtual, true => "dragDescriptionVirtual"
  | virtual, false => "dragDescriptionVirtual"
  end.

(** The variables handed to [stringFormatter.format] with a message key. *)
Inductive FormatArgs : Type :=
| NoArgs
| Count (count : nat)
| ItemText (itemText : string).

(** A value held by a props object: [undefined], a string, a boolean, an
    event listener supplied by [useDrag], or the listener
    [e => { if (e.altKey) { inner(e); } }] that [useDraggableItem] builds
    around the value [inner] read from the props ([undefined] when the
    property was missing). *)
Inductive PropValue (Listener : Type) : Type :=
| Undefined
| Str (s : string)
| Flag (b : bool)
| Listen (l : Listener)
| AltKeyOnly (inner : PropValue Listener).

Arguments Undefined {Listener}.
Arguments Str {Listener} s.
Arguments Flag {Listener} b.
Arguments Listen {Listener} l.
Arguments AltKeyOnly {Listener} inner.

(** What calling a props value with a key event does: the [useDrag]
    listeners called, or a [TypeError] when the value called is not a
    function. *)
Inductive Outcome (Listener : Type) : Type :=
| Called (listeners : list Listener)
| ThrowsTypeError.

Arguments Called {Listener} listeners.
Arguments ThrowsTypeError {Listener}.

Fixpoint fire {Listener : Type} (v : PropValue Listener) (altKey : bool)
  : Outcome Listener :=
  match v with
  | Listen l => Called [l]
  | AltKeyOnly inner =>
      if altKey then fire inner altKey else Called []
  | _ => ThrowsTypeError
  end.

(** [DraggableItemProps] without the key. *)
Record DraggableItemProps : Type := {
  hasDragButton : option bool;
  hasAction : option bool
}.

(** What the hook reads from its collaborators: the state's answers for
    the item, the modality, the formatter, the result of [useDrag] and the
    hook [useDescription]. *)
Record Environment {Listener : Type} : Type := {
  isDisabled : bool;
  numKeysForDrag : nat;
  isSelectedKey : bool;
  itemTextValue : option string;
  modality : DragModality;
  format : string -> FormatArgs -> string;
  useDrag_dragProps : gmap string (PropValue Listener);
  useDrag_dragButtonProps : gmap string (PropValue Listener);
  useDescription : option string -> gmap string (PropValue Listener)
}.

Arguments Environment : clear implicits.

(** [DraggableItemResult] *)
Record DraggableItemResult {Listener : Type} : Type := {
  dragProps : gmap string (PropValue Listener);
  dragButtonProps : gmap string (PropValue Listener)
}.

Arguments DraggableItemResult : clear implicits.

(** JavaScript truthiness of an optional flag and of an optional string. *)
Definition truthyFlag (b : option bool) : bool := default false b.

Definition truthyString (s : option string) : bool :=
  match s with
  | Some s => negb (String.eqb s "")
  | None => false
  end.

(** [numKeysForDrag > 1 && state.selectionManager.isSelected(props.key)] *)
Definition isSelected {Listener : Type} (env : Environment Listener) : bool :=
  (1 <? numKeysForDrag env)%nat && isSelectedKey env.

(** The message key looked up when there is no drag button. *)
Definition descriptionMessage {Listener : Type} (props : DraggableItemProps)
    (env : Environment Listener) : string :=
  let msg := MESSAGES (modality env) (isSelected env) in
  if truthyFlag (hasAction props) && bool_decide (modality env = keyboard)
  then msg +:+ "Alt"
  else msg.

(** The [description] and the [dragButtonLabel] after the first [if]. *)
Definition description {Listener : Type} (props : DraggableItemProps)
    (env : Environment Listener) : option string :=
  if negb (truthyFlag (hasDragButton props)) then
    if isSelected env
    then Some (format env (descriptionMessage props env) (Count (numKeysForDrag env)))
    else Some (format env (descriptionMessage props env) NoArgs)
  else None.

Definition dragButtonLabel {Listener : Type} (props : DraggableItemProps)
    (env : Environment Listener) : option string :=
  if negb (truthyFlag (hasDragButton props)) then None
  else if isSelected env
    then Some (format env "dragSelectedItems" (Count (numKeysForDrag env)))
    else Some (format env "dragItem" (ItemText (default "" (itemTextValue env)))).

(** A string or [undefined] as a props value. *)
Definition optionalStr {Listener : Type} (s : option string) : PropValue Listener :=
  match s with
  | Some s => Str s
  | None => Undefined
  end.

(** [useDraggableItem(props, state)], from the result of [useDrag] on.  The
    callbacks handed to [useDrag] are left out. *)
Definition useDraggableItem {Listener : Type} (props : DraggableItemProps)
    (env : Environment Listener) : DraggableItemResult Listener :=
  let dragProps := useDrag_dragProps env in
  let description := description props env in
  let descriptionProps := useDescription env description in
  (* Object.assign(dragProps, descriptionProps) *)
  let dragProps :=
    if truthyString description then descriptionProps ∪ dragProps else dragProps in
  let dragProps :=
    if negb (truthyFlag (hasDragButton props)) && truthyFlag (hasAction props) then
      let onKeyDownCapture := default Undefined (dragProps !! "onKeyDownCapture") in
      let onKeyUpCapture := default Undefined (dragProps !! "onKeyUpCapture") in
      let dragProps :=
        if bool_decide (modality env = touch)
        then delete "aria-describedby" dragProps
        else dragProps in
      let dragProps := <["onKeyDownCapture" := AltKeyOnly onKeyDownCapture]> dragProps in
      <["onKeyUpCapture" := AltKeyOnly onKeyUpCapture]> dragProps
    else dragProps in
  {| dragProps := if isDisabled env then ∅ else dragProps;
     dragButtonProps :=
       <["aria-label" := optionalStr (dragButtonLabel props env)]>
         (<["isDisabled" := Flag (isDisabled env)]> (useDrag_dragButtonProps env)) |}.

(** The seven message keys the description may use. *)
Definition descriptionMessages : list string :=
  [ "dragSelectedKeyboard"; "dragDescriptionKeyboard";
    "dragSelectedKeyboardAlt"; "dragDescriptionKeyboardAlt";
    "dragSelectedLongPress"; "dragDescriptionLongPress";
    "dragDescriptionVirtual" ].

End DraggableItem.

(* ===================================================================== *)
(** ** Runs of the hook, and vocabulary for stating their properties     *)
(* ===================================================================== *)

Module Runs.

Import DroppableCollectionState.

(** [setTarget] called with each target of [ts] in turn. *)
Definition setTargets {Handler : Type} (props : Props.t Handler)
    (ts : list (option DropTarget)) (w : Store Handler) : Store Handler :=
  foldl (fun w t => setTarget props t w) w ts.

(** Reading a call log as nested notifications.  [openTarget current log]
    is the target entered and not yet exited once [log] has been played
    from a state where [current] was entered; it is [None] when the log
    enters a target while another one is still entered, or exits a target
    other than the entered one. *)
Fixpoint openTarget {Handler : Type} (current : option DropTarget)
    (log : list (HostCall Handler)) : option (option DropTarget) :=
  match log with
  | [] => Some current
  | Call _ e :: rest =>
      match ev_type e, current with
      | dropenter, None => openTarget (Some (ev_target e)) rest
      | dropexit, Some t =>
          if decide (t = ev_target e) then openTarget None rest else None
      | _, _ => None
      end
  end.

(** Two item targets that name the same boundary between two neighbouring
    items: their keys differ, one is [before] its item and the other
    [after] its item, and the collection lists the [after] item just
    before the [before] item (as seen from either side). *)
Definition sameBoundary (collection : Collection) (x y : ItemDropTarget) : Prop :=
  key x <> key y
  /\ ((dropPosition x = before /\ dropPosition y = after
       /\ (getKeyBefore collection (key x) = Some (key y)
           \/ getKeyAfter collection (key y) = Some (key x)))
      \/ (dropPosition x = after /\ dropPosition y = before
          /\ (getKeyAfter collection (key x) = Some (key y)
              \/ getKeyBefore collection (key y) = Some (key x)))).

(** The props with another [shouldAcceptItemDrop]. *)
Definition withShouldAcceptItemDrop {Handler : Type}
    (accept : option (ItemDropTarget -> DragTypes -> bool)) (props : Props.t Handler)
  : Props.t Handler :=
  {| Props.acceptedDragTypes := Props.acceptedDragTypes props;
     Props.onInsert := Props.onInsert props;
     Props.onRootDrop := Props.onRootDrop props;
     Props.onItemDrop := Props.onItemDrop props;
     Props.onReorder := Props.onReorder props;
     Props.shouldAcceptItemDrop := accept;
     Props.collection := Props.collection props;
     Props.onDropEnter := Props.onDropEnter props;
     Props.onDropExit := Props.onDropExit props;
     Props.getDropOperation := Props.getDropOperation props;
     Props.onDrop := Props.onDrop props |}.

(** The event with other dragging keys. *)
Definition withDraggingKeys (keys : gset Key) (e : DropOperationEvent.t)
  : DropOperationEvent.t :=
  {| DropOperationEvent.target := DropOperationEvent.target e;
     DropOperationEvent.types := DropOperationEvent.types e;
     DropOperationEvent.allowedOperations := DropOperationEvent.allowedOperations e;
     DropOperationEvent.isInternal := DropOperationEvent.isInternal e;
     DropOperationEvent.draggingKeys := keys |}.

End Runs.

(* ===================================================================== *)
(** ** The contracts of the specification, in its own words              *)
(* ===================================================================== *)

Module Contracts.

(** The equality contract: both targets absent, or both root, or both item
    targets with the same key and the same drop position. *)
Definition equalityContract (x y : option DropTarget) : Prop :=
  (x = None /\ y = None)
  \/ (x = Some RootDropTarget /\ y = Some RootDropTarget)
  \/ (exists kx px ky py,
         x = Some (ItemTarget {| key := kx; dropPosition := px |})
         /\ y = Some (ItemTarget {| key := ky; dropPosition := py |})
         /\ kx = ky /\ px = py).

Section Policy.

Context {Handler : Type} (props : Props.t Handler) (e : DropOperationEvent.t).

(** The target is an item target with position [before] or [after]. *)
Definition betweenItems : Prop :=
  exists k p,
    DropOperationEvent.target e = ItemTarget {| key := k; dropPosition := p |}
    /\ (p = before \/ p = after).

(** valid-insert: the host supports insertion, the target lies between
    items, and the drag is not internal. *)
Definition validInsert : Prop :=
  is_Some (Props.onInsert props)
  /\ betweenItems
  /\ DropOperationEvent.isInternal e = false.

(** valid-reorder: the host supports reordering, the target lies between
    items, and the drag is internal. *)
Definition validReorder : Prop :=
  is_Some (Props.onReorder props)
  /\ betweenItems
  /\ DropOperationEvent.isInternal e = true.

(** valid-root-drop: the host supports root drops, the target is the root,
    and the drag is not internal. *)
Definition validRootDrop : Prop :=
  is_Some (Props.onRootDrop props)
  /\ DropOperationEvent.target e = RootDropTarget
  /\ DropOperationEvent.isInternal e = false.

(** valid-item-drop: the host supports item drops, the target position is
    [on], the drag is not an internal drag of the target's own key, and the
    custom acceptance predicate, if any, accepts the target. *)
Definition validItemDrop : Prop :=
  is_Some (Props.onItemDrop props)
  /\ exists k,
       DropOperationEvent.target e = ItemTarget {| key := k; dropPosition := on |}
       /\ ~ (DropOperationEvent.isInternal e = true
             /\ k ∈ DropOperationEvent.draggingKeys e)
       /\ (Props.shouldAcceptItemDrop props = None
           \/ exists accept,
                Props.shouldAcceptItemDrop props = Some accept
                /\ accept {| key := k; dropPosition := on |}
                     (DropOperationEvent.types e) = true).

(** The type gate: the host accepts all types, or one of the accepted type
    tags is carried by the drag. *)
Definition typeGatePasses : Prop :=
  match default All (Props.acceptedDragTypes props) with
  | All => True
  | Types tags => exists tag, tag ∈ tags /\ has (DropOperationEvent.types e) tag = true
  end.

(** Resolution proceeds to operation selection: a generic [onDrop] is
    supplied, or one of the four validity predicates holds. *)
Definition proceedsToSelection : Prop :=
  is_Some (Props.onDrop props)
  \/ validInsert \/ validReorder \/ validRootDrop \/ validItemDrop.

(** Operation selection: the custom callback's result, or else the first
    entry of [allowedOperations]. *)
Definition selectedOperation : option DropOperation :=
  match Props.getDropOperation props with
  | Some custom =>
      Some (custom (DropOperationEvent.target e) (DropOperationEvent.types e)
              (DropOperationEvent.allowedOperations e))
  | None => head (DropOperationEvent.allowedOperations e)
  end.

End Policy.

End Contracts.

(* ===================================================================== *)
(** ** A concrete collection and host, for running the model             *)
(* ===================================================================== *)

Module Fixtures.

(** The key listed just before the first occurrence of [k]. *)
Fixpoint keyBeforeIn (prev : option Key) (keys : list Key) (k : Key) : option Key :=
  match keys with
  | [] => None
  | k' :: rest => if decide (k' = k) then prev else keyBeforeIn (Some k') rest k
  end.

(** The key listed just after the first occurrence of [k]. *)
Fixpoint keyAfterIn (keys : list Key) (k : Key) : option Key :=
  match keys with
  | [] => None
  | k' :: rest => if decide (k' = k) then head rest else keyAfterIn rest k
  end.

(** The collection whose items are [keys], in that order. *)
Definition listCollection (keys : list Key) : Collection :=
  {| getKeyBefore := keyBeforeIn None keys; getKeyAfter := keyAfterIn keys |}.

Definition a : Key := KeyString "a".
Definition b : Key := KeyString "b".
Definition c : Key := KeyString "c".

Definition abc : Collection := listCollection [a; b; c].

Definition itemTarget (k : Key) (p : DropPosition) : DropTarget :=
  ItemTarget {| key := k; dropPosition := p |}.

(** A host that supplies no option at all; callbacks are named by strings. *)
Definition noProps : Props.t string :=
  {| Props.acceptedDragTypes := None;
     Props.onInsert := None;
     Props.onRootDrop := None;
     Props.onItemDrop := None;
     Props.onReorder := None;
     Props.shouldAcceptItemDrop := None;
     Props.collection := abc;
     Props.onDropEnter := None;
     Props.onDropExit := None;
     Props.getDropOperation := None;
     Props.onDrop := None |}.

(** A host that listens to target changes. *)
Definition listeningProps : Props.t string :=
  {| Props.acceptedDragTypes := None;
     Props.onInsert := None;
     Props.onRootDrop := None;
     Props.onItemDrop := None;
     Props.onReorder := None;
     Props.shouldAcceptItemDrop := None;
     Props.collection := abc;
     Props.onDropEnter := Some "onDropEnter";
     Props.onDropExit := Some "onDropExit";
     Props.getDropOperation := None;
     Props.onDrop := None |}.

(** A host that handles item drops and root drops, and that also supplies
    the generic [onDrop] when [generic] is set. *)
Definition dropProps (generic : bool) : Props.t string :=
  {| Props.acceptedDragTypes := None;
     Props.onInsert := None;
     Props.onRootDrop := Some "onRootDrop";
     Props.onItemDrop := Some "onItemDrop";
     Props.onReorder := None;
     Props.shouldAcceptItemDrop := None;
     Props.collection := abc;
     Props.onDropEnter := None;
     Props.onDropExit := None;
     Props.getDropOperation := None;
     Props.onDrop := if generic then Some "onDrop" else None |}.

(** A host that supports reordering only. *)
Definition reorderProps : Props.t string :=
  {| Props.acceptedDragTypes := None;
     Props.onInsert := None;
     Props.onRootDrop := None;
     Props.onItemDrop := None;
     Props.onReorder := Some "onReorder";
     Props.shouldAcceptItemDrop := None;
     Props.collection := abc;
     Props.onDropEnter := None;
     Props.onDropExit := None;
     Props.getDropOperation := None;
     Props.onDrop := None |}.

(** A host that accepts the given types, supplies every handler, and always
    chooses [link]. *)
Definition eagerProps (accepted : AcceptedDragTypes) : Props.t string :=
  {| Props.acceptedDragTypes := Some accepted;
     Props.onInsert := Some "onInsert";
     Props.onRootDrop := Some "onRootDrop";
     Props.onItemDrop := Some "onItemDrop";
     Props.onReorder := Some "onReorder";
     Props.shouldAcceptItemDrop := None;
     Props.collection := abc;
     Props.onDropEnter := None;
     Props.onDropExit := None;
     Props.getDropOperation := Some (fun _ _ _ => link);
     Props.onDrop := Some "onDrop" |}.

(** A drag of HTML from outside the collection. *)
Definition externalHtmlDrag (target : DropTarget) (ops : list DropOperation)
  : DropOperationEvent.t :=
  {| DropOperationEvent.target := target;
     DropOperationEvent.types := dragTypesOf {[ "text/html" ]};
     DropOperationEvent.allowedOperations := ops;
     DropOperationEvent.isInternal := false;
     DropOperationEvent.draggingKeys := ∅ |}.

(** A drag of the item [a] started inside the collection. *)
Definition internalDragOfA (target : DropTarget) (ops : list DropOperation)
  : DropOperationEvent.t :=
  {| DropOperationEvent.target := target;
     DropOperationEvent.types := dragTypesOf {[ "text/plain" ]};
     DropOperationEvent.allowedOperations := ops;
     DropOperationEvent.isInternal := true;
     DropOperationEvent.draggingKeys := {[ a ]} |}.

(** Some targets of the collection [a; b; c]. *)
Definition onA : DropTarget := itemTarget a on.
Definition afterA : DropTarget := itemTarget a after.
Definition beforeB : DropTarget := itemTarget b before.
Definition beforeC : DropTarget := itemTarget c before.

(** The store of a hook whose current target is [t]. *)
Definition storeAt (t : DropTarget) : DroppableCollectionState.Store string :=
  {| DroppableCollectionState.target := Some t;
     DroppableCollectionState.targetRef := Some t;
     DroppableCollectionState.calls := [] |}.

(** A column with a zero controlled width that allows resizing. *)
Definition zeroWidthColumn : TableView.SpectrumColumnProps :=
  {| TableView.width := Some (TableView.SizeNumber 0);
     TableView.defaultWidth := None;
     TableView.allowsResizing := Some true |}.

(** A column with a controlled width of 200 that allows resizing. *)
Definition wideColumn : TableView.SpectrumColumnProps :=
  {| TableView.width := Some (TableView.SizeNumber 200);
     TableView.defaultWidth := None;
     TableView.allowsResizing := Some true |}.

(** The columns [a; b; c] as the table collection links them, and their
    widths. *)
Definition columnBefore (key : option Key) : option Key :=
  match key with
  | Some k => getKeyBefore abc k
  | None => None
  end.

Definition columnWidth (key : option Key) : Z :=
  if decide (key = Some a) then 100
  else if decide (key = Some b) then 150
  else if decide (key = Some c) then 200
  else 0.

(** A [useDescription] that describes non-empty texts, the props of a
    [useDrag] with three properties, and an item seen through them:
    one key dragged, listeners named by strings, messages left as keys. *)
Definition describedBy (description : option string)
  : gmap string (DraggableItem.PropValue string) :=
  {[ "aria-describedby" :=
       if DraggableItem.truthyString description
       then DraggableItem.Str "description-1"
       else DraggableItem.Undefined ]}.

Definition draggableEnv (disabled : bool) (modality : DraggableItem.DragModality)
  : DraggableItem.Environment string :=
  {| DraggableItem.isDisabled := disabled;
     DraggableItem.numKeysForDrag := 1;
     DraggableItem.isSelectedKey := true;
     DraggableItem.itemTextValue := Some "Item a";
     DraggableItem.modality := modality;
     DraggableItem.format := fun message _ => message;
     DraggableItem.useDrag_dragProps :=
       {[ "draggable" := DraggableItem.Str "true";
          "onKeyDownCapture" := DraggableItem.Listen "useDrag.onKeyDownCapture";
          "onKeyUpCapture" := DraggableItem.Listen "useDrag.onKeyUpCapture" ]};
     DraggableItem.useDrag_dragButtonProps := ∅;
     DraggableItem.useDescription := describedBy |}.

Definition itemWithAction : DraggableItem.DraggableItemProps :=
  {| DraggableItem.hasDragButton := None; DraggableItem.hasAction := Some true |}.

Definition itemWithDragButton : DraggableItem.DraggableItemProps :=
  {| DraggableItem.hasDragButton := Some true; DraggableItem.hasAction := Some true |}.

(** The item [a] dragged onto itself, and dragged onto the root. *)
Definition selfDropOfA : DropOperationEvent.t :=
  internalDragOfA (itemTarget a on) [move; copy].

Definition internalRootDrop : DropOperationEvent.t :=
  internalDragOfA RootDropTarget [move; copy].

End Fixtures.

(* ===================================================================== *)
(** ** Target equality and opposite targets                              *)
(* ===================================================================== *)

Module TargetEquality.

Import DroppableCollectionState.

Lemma isEqualDropTarget_refl (t : option DropTarget) :
  isEqualDropTarget t t = true.
Proof.
  destruct t as [[|i]|]; simpl; [done| |done].
  by rewrite !bool_decide_eq_true_2.
Qed.

Lemma isEqualDropTarget_true_eq (x y : option DropTarget) :
  isEqualDropTarget x y = true -> x = y.
Proof.
  destruct x as [[|[kx px]]|], y as [[|[ky py]]|]; simpl;
    rewrite ?andb_true_iff, ?bool_decide_eq_true; try done.
  intros [Hk Hp]. by simplify_eq.
Qed.

Lemma isEqualDropTarget_eq (x y : option DropTarget) :
  isEqualDropTarget x y = true <-> x = y.
Proof.
  split; [apply isEqualDropTarget_true_eq|].
  intros ->. apply isEqualDropTarget_refl.
Qed.

(** C8. [isEqualDropTarget(a, b)] is true exactly when both targets are
    absent, or both are root targets, or both are item targets with the
    same key and the same drop position; it is false in every other case.
    In particular it is reflexive, true on two absent targets, and false
    on a root target against any item target. *)
Theorem isEqualDropTarget_contract :
  (forall x y : option DropTarget,
      isEqualDropTarget x y = true <-> Contracts.equalityContract x y)
  /\ (forall x y : option DropTarget,
         isEqualDropTarget x y = false <-> ~ Contracts.equalityContract x y)
  /\ (forall t : option DropTarget, isEqualDropTarget t t = true)
  /\ isEqualDropTarget None None = true
  /\ (forall i : ItemDropTarget,
         isEqualDropTarget (Some RootDropTarget) (Some (ItemTarget i)) = false
         /\ isEqualDropTarget (Some (ItemTarget i)) (Some RootDropTarget) = false).
Proof.
  assert (Hc : forall x y, isEqualDropTarget x y = true <-> Contracts.equalityContract x y).
  { intros x y. rewrite isEqualDropTarget_eq. unfold Contracts.equalityContract. split.
    - intros <-. destruct x as [[|[k p]]|]; [right; left|right; right|left]; try done.
      by exists k, p, k, p.
    - intros [[-> ->]|[[-> ->]|(kx & px & ky & py & -> & -> & -> & ->)]]; done. }
  split; [exact Hc|]. split; [|split; [|split]].
  - intros x y. rewrite <- Hc. by destruct (isEqualDropTarget x y).
  - apply isEqualDropTarget_refl.
  - done.
  - by intros [k p].
Qed.

(** C7. For an item target before [K]: when [getKeyBefore(K)] is a key [J],
    the opposite target is after [J], and if the collection is coherent
    ([getKeyAfter(J) = K]) the opposite of that opposite equals the original
    target; when [K] has no key before it, the target has no opposite.  The
    same holds, mirrored, for a target after [K] and [getKeyAfter]. *)
Theorem opposite_target_symmetry (collection : Collection) (K : Key) :
  let beforeK := {| key := K; dropPosition := before |} in
  let afterK := {| key := K; dropPosition := after |} in
  (forall J : Key,
      getKeyBefore collection K = Some J ->
      getOppositeTarget collection beforeK = Some {| key := J; dropPosition := after |}
      /\ (getKeyAfter collection J = Some K ->
          isEqualDropTarget
            (ItemTarget <$> (getOppositeTarget collection beforeK
                               ≫= getOppositeTarget collection))
            (Some (ItemTarget beforeK)) = true))
  /\ (getKeyBefore collection K = None ->
      getOppositeTarget collection beforeK = None)
  /\ (forall J : Key,
         getKeyAfter collection K = Some J ->
         getOppositeTarget collection afterK = Some {| key := J; dropPosition := before |}
         /\ (getKeyBefore collection J = Some K ->
             isEqualDropTarget
               (ItemTarget <$> (getOppositeTarget collection afterK
                                  ≫= getOppositeTarget collection))
               (Some (ItemTarget afterK)) = true))
  /\ (getKeyAfter collection K = None ->
      getOppositeTarget collection afterK = None).
Proof.
  intros beforeK afterK. unfold getOppositeTarget. simpl.
  split; [|split; [|split]].
  - intros J HJ. rewrite HJ. split; [done|].
    intros HK. simpl. rewrite HK. simpl.
    by rewrite !bool_decide_eq_true_2.
  - by intros ->.
  - intros J HJ. rewrite HJ. split; [done|].
    intros HK. simpl. rewrite HK. simpl.
    by rewrite !bool_decide_eq_true_2.
  - by intros ->.
Qed.

(** The theorem at the boundary between [a] and [b], and at both ends, of
    the collection [a; b; c]. *)
Lemma opposite_target_symmetry_witness :
  getOppositeTarget Fixtures.abc {| key := Fixtures.b; dropPosition := before |}
  = Some {| key := Fixtures.a; dropPosition := after |}
  /\ isEqualDropTarget
       (ItemTarget <$> (getOppositeTarget Fixtures.abc
                          {| key := Fixtures.b; dropPosition := before |}
                          ≫= getOppositeTarget Fixtures.abc))
       (Some (Fixtures.itemTarget Fixtures.b before)) = true
  /\ getOppositeTarget Fixtures.abc {| key := Fixtures.a; dropPosition := before |} = None
  /\ getOppositeTarget Fixtures.abc {| key := Fixtures.c; dropPosition := after |} = None.
Proof.
  pose proof (opposite_target_symmetry Fixtures.abc Fixtures.b) as Hb.
  pose proof (opposite_target_symmetry Fixtures.abc Fixtures.a) as Ha.
  pose proof (opposite_target_symmetry Fixtures.abc Fixtures.c) as Hc.
  simpl in Hb, Ha, Hc.
  destruct Hb as [Hb _]. destruct (Hb Fixtures.a eq_refl) as [Hopp Hback].
  destruct Ha as (_ & Hfirst & _). destruct Hc as (_ & _ & _ & Hlast).
  split; [exact Hopp|].
  split; [exact (Hback eq_refl)|].
  split; [exact (Hfirst eq_refl)|exact (Hlast eq_refl)].
Defined.

End TargetEquality.

(* ===================================================================== *)
(** ** Drop operation resolution                                         *)
(* ===================================================================== *)

Module ResolutionPolicy.

Import DroppableCollectionState.

#[local] Ltac bool_to_prop :=
  rewrite ?orb_true_iff, ?andb_true_iff, ?negb_true_iff, ?andb_false_iff,
    ?bool_decide_eq_true, ?bool_decide_eq_false.

Lemma truthy_is_Some {A : Type} (v : option A) : truthy v = true <-> is_Some v.
Proof.
  destruct v as [x|]; simpl; split; done.
Qed.

Lemma beforeOrAfter_true (t : DropTarget) :
  beforeOrAfter t = true <->
  exists k p, t = ItemTarget {| key := k; dropPosition := p |} /\ (p = before \/ p = after).
Proof.
  unfold beforeOrAfter. bool_to_prop. split.
  - destruct t as [|[k p]]; simpl; [by intros [?|?]|].
    intros [?|?]; exists k, p; naive_solver.
  - intros (k & p & -> & [-> | ->]); simpl; auto.
Qed.

Section Policy.

Context {Handler : Type} (props : Props.t Handler) (e : DropOperationEvent.t).

(** The type gate of the code is the type gate of the specification. *)
Lemma acceptsTypes_gate :
  acceptsTypes (default All (Props.acceptedDragTypes props)) (DropOperationEvent.types e) = true
  <-> Contracts.typeGatePasses props e.
Proof.
  unfold Contracts.typeGatePasses.
  destruct (default All (Props.acceptedDragTypes props)) as [|tags]; simpl; [done|].
  rewrite existsb_exists. split.
  - intros (tag & Hin & Hhas). exists tag. by rewrite list_elem_of_In.
  - intros (tag & Hin & Hhas). exists tag. by rewrite <- list_elem_of_In.
Qed.

(** The two branches of [defaultGetDropOperation] behind the type gate. *)
Lemma getDropOperation_blocked :
  acceptsTypes (default All (Props.acceptedDragTypes props)) (DropOperationEvent.types e) = false ->
  getDropOperation props e = Some cancel.
Proof.
  intros Hgate. unfold getDropOperation, defaultGetDropOperation. by rewrite Hgate.
Qed.

Lemma getDropOperation_selects :
  Contracts.typeGatePasses props e ->
  Contracts.proceedsToSelection props e ->
  getDropOperation props e = Contracts.selectedOperation props e.
Proof.
  intros Hgate%acceptsTypes_gate Hgo.
  unfold getDropOperation, defaultGetDropOperation. rewrite Hgate.
  unfold Contracts.selectedOperation.
  match goal with |- (if ?c then _ else _) = _ => assert (c = true) as -> end.
  2:{ destruct (Props.getDropOperation props); [done|].
      by destruct (DropOperationEvent.allowedOperations e). }
  bool_to_prop. rewrite !truthy_is_Some, !beforeOrAfter_true.
  destruct Hgo as [H|[H|[H|[H|H]]]].
  - by repeat left.
  - destruct H as (Hon & (k & p & Ht & Hp) & Hint).
    left; left; left; right. rewrite Ht. simpl. eauto 10.
  - destruct H as (Hon & (k & p & Ht & Hp) & Hint).
    left; left; right. rewrite Ht. simpl. eauto 10.
  - destruct H as (Hon & Ht & Hint).
    left; right. rewrite Ht. simpl. eauto.
  - destruct H as (Hon & k & Ht & Hself & Hacc).
    right. rewrite Ht. simpl. bool_to_prop.
    split; [done|]. split.
    + destruct (DropOperationEvent.isInternal e); [right|by left].
      intros Hin. by apply Hself.
    + destruct Hacc as [-> | (accept & -> & Hacc)]; done.
Qed.

Lemma getDropOperation_declines :
  Props.onDrop props = None ->
  ~ Contracts.validInsert props e ->
  ~ Contracts.validReorder props e ->
  ~ Contracts.validRootDrop props e ->
  ~ Contracts.validItemDrop props e ->
  getDropOperation props e = Some cancel.
Proof.
  intros HonDrop Hins Hre Hroot Hitem.
  unfold getDropOperation, defaultGetDropOperation.
  destruct (acceptsTypes _ _); [|done].
  match goal with |- (if ?c then _ else _) = _ => destruct c eqn:Hc end; [|done].
  exfalso. revert Hc. rewrite HonDrop. simpl. bool_to_prop.
  rewrite !truthy_is_Some, !beforeOrAfter_true.
  intros [[[H|H]|H]|H].
  - destruct H as [[[Hon _] Hint] Hbetween]. apply Hins.
    by unfold Contracts.validInsert, Contracts.betweenItems.
  - destruct H as [[[Hon _] Hint] Hbetween]. apply Hre.
    by unfold Contracts.validReorder, Contracts.betweenItems.
  - destruct H as [[Hon Ht] Hint]. apply Hroot.
    unfold Contracts.validRootDrop.
    by destruct (DropOperationEvent.target e).
  - apply Hitem. unfold Contracts.validItemDrop.
    destruct H as [Hon H]. split; [done|].
    destruct (DropOperationEvent.target e) as [|[k p]]; [done|].
    revert H. simpl. bool_to_prop. intros [[-> Hself] Hacc].
    exists k. split; [done|]. split.
    + intros [Hint Hin]. destruct Hself as [Hself|Hself]; congruence.
    + destruct (Props.shouldAcceptItemDrop props) as [accept|]; [right|by left].
      by exists accept.
Qed.

End Policy.

(** A host without any handler cancels every drop; a reordering host
    cancels an external drag between items. *)
Example no_handler_cancels :
  getDropOperation Fixtures.noProps (Fixtures.externalHtmlDrag RootDropTarget [move])
  = Some cancel.
Proof. reflexivity. Qed.

Example reorder_host_cancels_external_drag :
  getDropOperation Fixtures.reorderProps
    (Fixtures.externalHtmlDrag Fixtures.beforeB [move; copy]) = Some cancel.
Proof. reflexivity. Qed.

(** C1. When the host declares a restricted list of accepted drag types and
    the drag carries none of them, [getDropOperation] returns [cancel],
    whatever the target, the handlers and the custom operation choice are;
    a host that declares ['all'] always passes the type gate. *)
Theorem type_gate_cancels_unaccepted_drag {Handler : Type}
    (props : Props.t Handler) (e : DropOperationEvent.t) :
  (forall tags : list string,
      Props.acceptedDragTypes props = Some (Types tags) ->
      (forall tag, tag ∈ tags -> has (DropOperationEvent.types e) tag = false) ->
      getDropOperation props e = Some cancel)
  /\ (Props.acceptedDragTypes props = Some All ->
      acceptsTypes (default All (Props.acceptedDragTypes props))
        (DropOperationEvent.types e) = true).
Proof.
  split.
  - intros tags Hdecl Hnone. apply getDropOperation_blocked.
    rewrite Hdecl. simpl.
    destruct (existsb _ tags) eqn:Hex; [|done].
    apply existsb_exists in Hex as (tag & Hin & Hhas).
    apply list_elem_of_In, Hnone in Hin. congruence.
  - by intros ->.
Qed.

(** The scenario of the specification: only ['text/plain'] is accepted and
    the drag carries ['text/html']; every handler and a custom operation
    choice are supplied. *)
Lemma type_gate_cancels_unaccepted_drag_witness :
  getDropOperation (Fixtures.eagerProps (Types ["text/plain"]))
    (Fixtures.externalHtmlDrag RootDropTarget [move; copy]) = Some cancel
  /\ acceptsTypes (default All (Props.acceptedDragTypes (Fixtures.eagerProps All)))
       (DropOperationEvent.types (Fixtures.externalHtmlDrag RootDropTarget [move])) = true.
Proof.
  split.
  - apply (proj1 (type_gate_cancels_unaccepted_drag
                    (Fixtures.eagerProps (Types ["text/plain"]))
                    (Fixtures.externalHtmlDrag RootDropTarget [move; copy]))
             ["text/plain"]); [reflexivity|].
    intros tag Hin. apply list_elem_of_singleton in Hin. subst tag.
    vm_compute. reflexivity.
  - apply (proj2 (type_gate_cancels_unaccepted_drag (Fixtures.eagerProps All)
                    (Fixtures.externalHtmlDrag RootDropTarget [move]))).
    reflexivity.
Defined.

(** C2. When resolution proceeds to operation selection, the result is the
    custom callback's result if the host supplied one, and the first entry
    of [allowedOperations] otherwise.  In particular a host that supports
    reordering and supplies no custom callback answers [move] to an
    internal drag of [a] before [b] that allows [move] then [copy]. *)
Theorem operation_selection_delegates_or_defaults {Handler : Type}
    (props : Props.t Handler) (e : DropOperationEvent.t) :
  (Contracts.typeGatePasses props e ->
   Contracts.proceedsToSelection props e ->
   match Props.getDropOperation props with
   | Some custom =>
       getDropOperation props e
       = Some (custom (DropOperationEvent.target e) (DropOperationEvent.types e)
                 (DropOperationEvent.allowedOperations e))
   | None =>
       getDropOperation props e = head (DropOperationEvent.allowedOperations e)
   end)
  /\ (Contracts.typeGatePasses props e ->
      is_Some (Props.onReorder props) ->
      Props.getDropOperation props = None ->
      DropOperationEvent.target e
      = ItemTarget {| key := KeyString "b"; dropPosition := before |} ->
      DropOperationEvent.isInternal e = true ->
      DropOperationEvent.draggingKeys e = {[ KeyString "a" ]} ->
      DropOperationEvent.allowedOperations e = [move; copy] ->
      getDropOperation props e = Some move).
Proof.
  split.
  - intros Hgate Hgo. rewrite (getDropOperation_selects props e Hgate Hgo).
    unfold Contracts.selectedOperation.
    by destruct (Props.getDropOperation props).
  - intros Hgate Hre Hcustom Ht Hint _ Hops.
    rewrite (getDropOperation_selects props e Hgate).
    + unfold Contracts.selectedOperation. by rewrite Hcustom, Hops.
    + right; right; left. split; [done|]. split; [|done].
      exists (KeyString "b"), before. auto.
Qed.

Lemma operation_selection_delegates_or_defaults_witness :
  getDropOperation (Fixtures.eagerProps All)
    (Fixtures.externalHtmlDrag RootDropTarget [move; copy]) = Some link
  /\ getDropOperation Fixtures.reorderProps
       (Fixtures.internalDragOfA (Fixtures.itemTarget Fixtures.b before) [move; copy])
     = Some move.
Proof.
  split.
  - apply (proj1 (operation_selection_delegates_or_defaults (Fixtures.eagerProps All)
                    (Fixtures.externalHtmlDrag RootDropTarget [move; copy]))).
    + exact I.
    + left. by eexists.
  - apply (proj2 (operation_selection_delegates_or_defaults Fixtures.reorderProps
                    (Fixtures.internalDragOfA (Fixtures.itemTarget Fixtures.b before)
                       [move; copy])));
      [exact I | by eexists | reflexivity ..].
Defined.

(** Neither insertion nor reordering applies to a target that does not lie
    between two items. *)
Lemma not_betweenItems_root (e : DropOperationEvent.t) :
  DropOperationEvent.target e = RootDropTarget -> ~ Contracts.betweenItems e.
Proof. intros Ht (k & p & Hitem & _). congruence. Qed.

Lemma not_betweenItems_on (e : DropOperationEvent.t) (k : Key) :
  DropOperationEvent.target e = ItemTarget {| key := k; dropPosition := on |} ->
  ~ Contracts.betweenItems e.
Proof.
  intros Ht (k' & p & Hitem & Hp). rewrite Ht in Hitem.
  destruct Hp as [-> | ->]; congruence.
Qed.

(** C3, as the claim states it, fails: a host that supplies the generic
    [onDrop] gets [move] for the item [a] dropped on itself. *)
Lemma self_drop_proceeds_under_onDrop :
  DropOperationEvent.target Fixtures.selfDropOfA
  = ItemTarget {| key := Fixtures.a; dropPosition := on |}
  /\ DropOperationEvent.isInternal Fixtures.selfDropOfA = true
  /\ Fixtures.a ∈ DropOperationEvent.draggingKeys Fixtures.selfDropOfA
  /\ is_Some (Props.onItemDrop (Fixtures.dropProps true))
  /\ getDropOperation (Fixtures.dropProps true) Fixtures.selfDropOfA = Some move
  /\ getDropOperation (Fixtures.dropProps true) Fixtures.selfDropOfA <> Some cancel.
Proof.
  split; [done|]. split; [done|]. split; [set_solver|].
  split; [done|]. by vm_compute.
Qed.

(** C3 (amended). An internal drag of an item onto itself (position [on],
    the target's key among the dragged keys) is answered by [cancel]
    whenever the host supplies no generic [onDrop], also when [onItemDrop]
    is defined. *)
Theorem self_drop_cancelled_without_onDrop {Handler : Type}
    (props : Props.t Handler) (e : DropOperationEvent.t) (k : Key) :
  DropOperationEvent.target e = ItemTarget {| key := k; dropPosition := on |} ->
  DropOperationEvent.isInternal e = true ->
  k ∈ DropOperationEvent.draggingKeys e ->
  Props.onDrop props = None ->
  getDropOperation props e = Some cancel.
Proof.
  intros Ht Hint Hin HonDrop.
  apply getDropOperation_declines; [done|..].
  - intros (_ & Hbetween & _). by eapply not_betweenItems_on.
  - intros (_ & Hbetween & _). by eapply not_betweenItems_on.
  - intros (_ & Hroot & _). congruence.
  - intros (_ & k' & Ht' & Hself & _). apply Hself. split; [done|].
    rewrite Ht in Ht'. by simplify_eq.
Qed.

Lemma self_drop_cancelled_without_onDrop_witness :
  is_Some (Props.onItemDrop (Fixtures.dropProps false))
  /\ getDropOperation (Fixtures.dropProps false) Fixtures.selfDropOfA = Some cancel.
Proof.
  split; [done|].
  apply (self_drop_cancelled_without_onDrop (Fixtures.dropProps false)
           Fixtures.selfDropOfA Fixtures.a); [reflexivity | reflexivity | | reflexivity].
  change (Fixtures.a ∈ ({[ Fixtures.a ]} : gset Key)).
  apply elem_of_singleton_2. reflexivity.
Defined.

(** C4, as the claim states it, fails: a host that supplies the generic
    [onDrop] gets [move] for an internal drag onto the root. *)
Lemma internal_root_drop_proceeds_under_onDrop :
  DropOperationEvent.target Fixtures.internalRootDrop = RootDropTarget
  /\ DropOperationEvent.isInternal Fixtures.internalRootDrop = true
  /\ is_Some (Props.onRootDrop (Fixtures.dropProps true))
  /\ getDropOperation (Fixtures.dropProps true) Fixtures.internalRootDrop = Some move
  /\ getDropOperation (Fixtures.dropProps true) Fixtures.internalRootDrop <> Some cancel.
Proof.
  split; [done|]. split; [done|]. split; [done|]. by vm_compute.
Qed.

(** C4 (amended). An internal drag onto the root is answered by [cancel]
    whenever the host supplies no generic [onDrop], also when [onRootDrop]
    is defined. *)
Theorem internal_root_drop_cancelled_without_onDrop {Handler : Type}
    (props : Props.t Handler) (e : DropOperationEvent.t) :
  DropOperationEvent.target e = RootDropTarget ->
  DropOperationEvent.isInternal e = true ->
  Props.onDrop props = None ->
  getDropOperation props e = Some cancel.
Proof.
  intros Ht Hint HonDrop.
  apply getDropOperation_declines; [done|..].
  - intros (_ & Hbetween & _). by eapply not_betweenItems_root.
  - intros (_ & Hbetween & _). by eapply not_betweenItems_root.
  - intros (_ & _ & Hext). congruence.
  - intros (_ & k & Hitem & _). congruence.
Qed.

Lemma internal_root_drop_cancelled_without_onDrop_witness :
  is_Some (Props.onRootDrop (Fixtures.dropProps false))
  /\ getDropOperation (Fixtures.dropProps false) Fixtures.internalRootDrop = Some cancel.
Proof.
  split; [done|].
  apply (internal_root_drop_cancelled_without_onDrop (Fixtures.dropProps false)
           Fixtures.internalRootDrop);
    reflexivity.
Defined.

(** C10. When resolution proceeds to operation selection, no custom
    callback is supplied and [allowedOperations] is empty, the first-element
    access gives [undefined]: the result is neither an operation kind nor
    [cancel].  Such a call exists. *)
Theorem empty_allowedOperations_select_undefined :
  (forall (Handler : Type) (props : Props.t Handler) (e : DropOperationEvent.t),
      Contracts.typeGatePasses props e ->
      Contracts.proceedsToSelection props e ->
      Props.getDropOperation props = None ->
      DropOperationEvent.allowedOperations e = [] ->
      getDropOperation props e = None
      /\ forall op : DropOperation, getDropOperation props e <> Some op)
  /\ (exists (props : Props.t string) (e : DropOperationEvent.t),
         getDropOperation props e = None).
Proof.
  assert (Hgen : forall (Handler : Type) (props : Props.t Handler) e,
             Contracts.typeGatePasses props e ->
             Contracts.proceedsToSelection props e ->
             Props.getDropOperation props = None ->
             DropOperationEvent.allowedOperations e = [] ->
             getDropOperation props e = None).
  { intros Handler props e Hgate Hgo Hcustom Hops.
    rewrite (getDropOperation_selects props e Hgate Hgo).
    unfold Contracts.selectedOperation. by rewrite Hcustom, Hops. }
  split.
  - intros Handler props e Hgate Hgo Hcustom Hops.
    rewrite (Hgen Handler props e Hgate Hgo Hcustom Hops). by split.
  - exists Fixtures.reorderProps,
      (Fixtures.internalDragOfA (Fixtures.itemTarget Fixtures.b before) []).
    apply Hgen; [exact I | | reflexivity | reflexivity].
    right; right; left. split; [by eexists|]. split; [|done].
    exists Fixtures.b, before. auto.
Qed.

(** A reordering host asked about an internal drag that allows no
    operation at all. *)
Lemma empty_allowedOperations_select_undefined_witness :
  getDropOperation Fixtures.reorderProps
    (Fixtures.internalDragOfA (Fixtures.itemTarget Fixtures.b before) []) = None.
Proof.
  refine (proj1 (proj1 empty_allowedOperations_select_undefined string
                   Fixtures.reorderProps
                   (Fixtures.internalDragOfA (Fixtures.itemTarget Fixtures.b before) [])
                   I _ eq_refl eq_refl)).
  right; right; left. split; [by eexists|]. split; [|reflexivity].
  exists Fixtures.b, before. split; [reflexivity|]. by left.
Defined.

End ResolutionPolicy.

(* ===================================================================== *)
(** ** Target assignment and notification sequencing                     *)
(* ===================================================================== *)

Module TargetAssignment.

Import DroppableCollectionState.

Section Assignment.

Context {Handler : Type} (props : Props.t Handler).

(** Two item targets on the two sides of one boundary are the same drop
    target: [after A] against [before B] when [B] follows [A]. *)
Lemma isDropTarget_across_boundary (w : Store Handler) (A B : Key) :
  A <> B ->
  getKeyAfter (Props.collection props) A = Some B
  \/ getKeyBefore (Props.collection props) B = Some A ->
  (targetRef w = Some (ItemTarget {| key := A; dropPosition := after |}) ->
   isDropTarget props w (Some (ItemTarget {| key := B; dropPosition := before |})) = true)
  /\ (targetRef w = Some (ItemTarget {| key := B; dropPosition := before |}) ->
      isDropTarget props w (Some (ItemTarget {| key := A; dropPosition := after |})) = true).
Proof.
  intros Hne Hadj. unfold isDropTarget, isEqualDropTarget, getOppositeTarget.
  split; intros ->; simpl.
  - rewrite (bool_decide_eq_false_2 (Some A = Some B)) by congruence.
    rewrite (bool_decide_eq_false_2 (B = A)) by congruence. simpl.
    destruct Hadj as [-> | ->]; simpl; rewrite !bool_decide_eq_true_2 by done;
      simpl; by rewrite ?orb_true_r.
  - rewrite (bool_decide_eq_false_2 (Some B = Some A)) by congruence.
    rewrite (bool_decide_eq_false_2 (A = B)) by congruence. simpl.
    destruct Hadj as [-> | ->]; simpl; rewrite !bool_decide_eq_true_2 by done;
      simpl; by rewrite ?orb_true_r.
Qed.

(** [before c] is not the boundary after [a], and [on b] is no boundary. *)
Example isDropTarget_other_boundary :
  isDropTarget Fixtures.listeningProps (Fixtures.storeAt Fixtures.afterA)
    (Some Fixtures.beforeC) = false
  /\ isDropTarget Fixtures.listeningProps (Fixtures.storeAt Fixtures.afterA)
       (Some (Fixtures.itemTarget Fixtures.b on)) = false
  /\ isDropTarget Fixtures.listeningProps (Fixtures.storeAt Fixtures.afterA) None = false.
Proof. by vm_compute. Qed.

(** C5. When [isDropTarget(newTarget)] holds of the stored target,
    [setTarget(newTarget)] changes nothing: the stored target is the same
    and no callback is called.  This covers two item targets on opposite
    sides of one boundary, [after A] followed by [before B] where [B]
    immediately follows [A]. *)
Theorem setTarget_same_target_is_noop (w : Store Handler)
    (newTarget : option DropTarget) :
  (isDropTarget props w newTarget = true ->
   setTarget props newTarget w = w
   /\ targetRef (setTarget props newTarget w) = targetRef w
   /\ calls (setTarget props newTarget w) = calls w)
  /\ (forall A B : Key,
         A <> B ->
         getKeyAfter (Props.collection props) A = Some B
         \/ getKeyBefore (Props.collection props) B = Some A ->
         targetRef w = Some (ItemTarget {| key := A; dropPosition := after |}) ->
         newTarget = Some (ItemTarget {| key := B; dropPosition := before |}) ->
         isDropTarget props w newTarget = true
         /\ setTarget props newTarget w = w).
Proof.
  assert (Hnoop : isDropTarget props w newTarget = true ->
                  setTarget props newTarget w = w).
  { intros Hsame. unfold setTarget. by rewrite Hsame. }
  split.
  - intros Hsame. by rewrite (Hnoop Hsame).
  - intros A B Hne Hadj Hstored ->.
    pose proof (proj1 (isDropTarget_across_boundary w A B Hne Hadj) Hstored) as Hsame.
    split; [done|]. by apply Hnoop.
Qed.

(** C6. When [newTarget] is not the stored target, [setTarget(newTarget)]
    calls [onDropExit] once with the outgoing target if there is one, then
    [onDropEnter] once with the incoming target if it is not null, in this
    order and nothing else, and stores [newTarget].  (A callback the host
    did not supply is not called.) *)
Theorem setTarget_exit_then_enter (w : Store Handler)
    (newTarget : option DropTarget) :
  isDropTarget props w newTarget = false ->
  calls (setTarget props newTarget w)
  = calls w
      ++ match targetRef w, Props.onDropExit props with
         | Some outgoing, Some onDropExit =>
             [Call onDropExit
                {| ev_type := dropexit; ev_x := 0; ev_y := 0; ev_target := outgoing |}]
         | _, _ => []
         end
      ++ match newTarget, Props.onDropEnter props with
         | Some incoming, Some onDropEnter =>
             [Call onDropEnter
                {| ev_type := dropenter; ev_x := 0; ev_y := 0; ev_target := incoming |}]
         | _, _ => []
         end
  /\ targetRef (setTarget props newTarget w) = newTarget
  /\ target (setTarget props newTarget w) = newTarget.
Proof.
  intros Hother. unfold setTarget. rewrite Hother.
  split; [|done].
  destruct (targetRef w) as [outgoing|], (Props.onDropExit props) as [onDropExit|],
    newTarget as [incoming|], (Props.onDropEnter props) as [onDropEnter|];
    simpl; by rewrite ?app_nil_r, <- ?app_assoc.
Qed.

End Assignment.

(** In the collection [a; b; c], with [after a] stored, [before b] is the
    same target and setting it does nothing. *)
Lemma setTarget_same_target_is_noop_witness :
  isDropTarget Fixtures.listeningProps (Fixtures.storeAt Fixtures.afterA)
    (Some Fixtures.beforeB) = true
  /\ setTarget Fixtures.listeningProps (Some Fixtures.beforeB)
       (Fixtures.storeAt Fixtures.afterA)
     = Fixtures.storeAt Fixtures.afterA
  /\ calls (setTarget Fixtures.listeningProps (Some Fixtures.beforeB)
              (Fixtures.storeAt Fixtures.afterA)) = [].
Proof.
  pose proof (setTarget_same_target_is_noop Fixtures.listeningProps
                (Fixtures.storeAt Fixtures.afterA) (Some Fixtures.beforeB))
    as [Hgen Hboundary].
  destruct (Hboundary Fixtures.a Fixtures.b) as [Hsame Hnoop];
    [discriminate | left; reflexivity | reflexivity | reflexivity |].
  split; [exact Hsame|]. split; [exact Hnoop|].
  exact (proj2 (proj2 (Hgen Hsame))).
Defined.

(** [setTarget(on a)] from the initial store, then [setTarget(before c)]:
    the log is enter [on a], exit [on a], enter [before c]. *)
Lemma setTarget_exit_then_enter_witness :
  calls (setTarget Fixtures.listeningProps (Some Fixtures.beforeC)
           (setTarget Fixtures.listeningProps (Some Fixtures.onA) initialStore))
  = [ Call "onDropEnter"
        {| ev_type := dropenter; ev_x := 0; ev_y := 0; ev_target := Fixtures.onA |};
      Call "onDropExit"
        {| ev_type := dropexit; ev_x := 0; ev_y := 0; ev_target := Fixtures.onA |};
      Call "onDropEnter"
        {| ev_type := dropenter; ev_x := 0; ev_y := 0; ev_target := Fixtures.beforeC |} ]
  /\ targetRef (setTarget Fixtures.listeningProps (Some Fixtures.beforeC)
                  (setTarget Fixtures.listeningProps (Some Fixtures.onA) initialStore))
     = Some Fixtures.beforeC.
Proof.
  destruct (setTarget_exit_then_enter Fixtures.listeningProps
              (setTarget Fixtures.listeningProps (Some Fixtures.onA) initialStore)
              (Some Fixtures.beforeC) eq_refl)
    as (Hcalls & Href & _).
  split; [exact Hcalls | exact Href].
Defined.

End TargetAssignment.

(* ===================================================================== *)
(** ** The guard of [ResizableTableColumnHeader]                         *)
(* ===================================================================== *)

Module ColumnHeaderGuard.

Import TableView.

(** A truthy controlled width together with [allowsResizing] makes the
    header throw the configuration error. *)
Lemma truthy_width_throws {Rendered : Type}
    (render : SpectrumColumnProps -> Rendered) (columnProps : SpectrumColumnProps) :
  truthyWidth (width columnProps) = true ->
  allowsResizing columnProps = Some true ->
  ResizableTableColumnHeader render columnProps = inl controlledResizeError.
Proof.
  intros Hwidth Hresize. unfold ResizableTableColumnHeader.
  by rewrite Hwidth, Hresize.
Qed.

Example wideColumn_throws :
  ResizableTableColumnHeader (fun _ => tt) Fixtures.wideColumn = inl controlledResizeError.
Proof. reflexivity. Qed.

(** C9. A column with the controlled width [0] and [allowsResizing = true]
    is rendered: the guard reads the width by truthiness, so the header does
    not throw the configuration error for it. *)
Theorem zero_width_resizable_header_is_rendered {Rendered : Type}
    (render : SpectrumColumnProps -> Rendered) :
  width Fixtures.zeroWidthColumn = Some (SizeNumber 0)
  /\ allowsResizing Fixtures.zeroWidthColumn = Some true
  /\ ResizableTableColumnHeader render Fixtures.zeroWidthColumn
     = inr (render Fixtures.zeroWidthColumn)
  /\ ResizableTableColumnHeader render Fixtures.zeroWidthColumn
     <> inl controlledResizeError.
Proof. done. Qed.

End ColumnHeaderGuard.

(* ===================================================================== *)
(** ** Runs of [setTarget] and the shape of [isDropTarget]               *)
(* ===================================================================== *)

Module TargetRuns.

Import DroppableCollectionState Runs.

Lemma openTarget_app {Handler : Type} (log1 log2 : list (HostCall Handler))
    (current : option DropTarget) :
  openTarget current (log1 ++ log2)
  = openTarget current log1 ≫= fun c => openTarget c log2.
Proof.
  revert current. induction log1 as [|[h e] log1 IH]; intros current; [done|].
  simpl. destruct (ev_type e), current as [t|]; try done.
  by destruct (decide (t = ev_target e)).
Qed.

Lemma isEqualDropTarget_decide (x y : option DropTarget) :
  isEqualDropTarget x y = bool_decide (x = y).
Proof.
  destruct (isEqualDropTarget x y) eqn:Heq; symmetry.
  - by apply bool_decide_eq_true_2, TargetEquality.isEqualDropTarget_eq.
  - apply bool_decide_eq_false_2. intros Hxy%TargetEquality.isEqualDropTarget_eq.
    congruence.
Qed.

Section Runs.

Context {Handler : Type} (props : Props.t Handler).

(** [isDropTarget] by cases: the candidate is the stored target, or both
    are item targets naming the same boundary. *)
Lemma isDropTarget_cases (w : Store Handler) (candidate : option DropTarget) :
  isDropTarget props w candidate = true <->
  candidate = targetRef w
  \/ exists d t,
       candidate = Some (ItemTarget d)
       /\ targetRef w = Some (ItemTarget t)
       /\ sameBoundary (Props.collection props) d t.
Proof.
  unfold isDropTarget.
  destruct (isEqualDropTarget candidate (targetRef w)) eqn:Heq.
  { apply TargetEquality.isEqualDropTarget_eq in Heq. split; auto. }
  assert (Hne : candidate <> targetRef w).
  { intros Hsame. apply TargetEquality.isEqualDropTarget_eq in Hsame. congruence. }
  clear Heq.
  destruct candidate as [[|[kd pd]]|], (targetRef w) as [[|[kt pt]]|];
    try (split; [done | intros [?|(d & t & ? & ? & _)]; congruence]).
  rewrite !isEqualDropTarget_decide. cbv beta iota.
  match goal with |- (if ?c then _ else _) = true <-> _ => destruct c eqn:Hc end.
  - apply andb_true_iff in Hc as [Hc Hton]. apply andb_true_iff in Hc as [Hc Hdon].
    apply andb_true_iff in Hc as [Hk Hp].
    apply negb_true_iff, bool_decide_eq_false in Hk, Hp, Hdon, Hton.
    rewrite orb_true_iff, !bool_decide_eq_true.
    unfold sameBoundary, getOppositeTarget. simpl in *.
    destruct pd, pt; try done.
    + split.
      * intros Hopp. right. eexists _, _. split; [done|]. split; [done|]. simpl.
        split; [done|]. left. split; [done|]. split; [done|].
        destruct Hopp as [Hopp|Hopp]; [left|right].
        -- destruct (getKeyBefore (Props.collection props) kd); by simplify_eq/=.
        -- destruct (getKeyAfter (Props.collection props) kt); by simplify_eq/=.
      * intros [?|(d & t & ? & ? & _ & [(_ & _ & Hadj)|(? & _)])];
          simplify_eq/=. destruct Hadj as [-> | ->]; simpl; auto.
    + split.
      * intros Hopp. right. eexists _, _. split; [done|]. split; [done|]. simpl.
        split; [done|]. right. split; [done|]. split; [done|].
        destruct Hopp as [Hopp|Hopp]; [left|right].
        -- destruct (getKeyAfter (Props.collection props) kd); by simplify_eq/=.
        -- destruct (getKeyBefore (Props.collection props) kt); by simplify_eq/=.
      * intros [?|(d & t & ? & ? & _ & [(? & _)|(_ & _ & Hadj)])];
          simplify_eq/=. destruct Hadj as [-> | ->]; simpl; auto.
  - split; [done|]. intros [?|(d & t & ? & ? & Hk & Hside)]; [done|].
    simplify_eq. simpl in *. exfalso.
    rewrite (bool_decide_eq_false_2 _ Hk) in Hc. simpl in Hc.
    destruct Hside as [(-> & -> & _)|(-> & -> & _)]; done.
Qed.

Lemma sameBoundary_sym (collection : Collection) (x y : ItemDropTarget) :
  sameBoundary collection x y -> sameBoundary collection y x.
Proof.
  intros [Hk [(Hx & Hy & Hadj)|(Hx & Hy & Hadj)]]; (split; [done|]);
    [right|left]; (split; [done|]); (split; [done|]); tauto.
Qed.

Lemma isDropTarget_setTarget (w : Store Handler) (t : option DropTarget) :
  isDropTarget props (setTarget props t w) t = true.
Proof.
  unfold setTarget. destruct (isDropTarget props w t) eqn:Hsame; [done|].
  unfold isDropTarget. simpl. by rewrite TargetEquality.isEqualDropTarget_refl.
Qed.

Lemma setTarget_keeps_cells_equal (w : Store Handler) (t : option DropTarget) :
  target w = targetRef w ->
  target (setTarget props t w) = targetRef (setTarget props t w).
Proof. intros Hsync. unfold setTarget. by destruct (isDropTarget props w t). Qed.

Lemma setTarget_keeps_log_nested (w : Store Handler) (t : option DropTarget) :
  is_Some (Props.onDropEnter props) ->
  is_Some (Props.onDropExit props) ->
  openTarget None (calls w) = Some (targetRef w) ->
  openTarget None (calls (setTarget props t w))
  = Some (targetRef (setTarget props t w)).
Proof.
  intros [enter Henter] [exit Hexit] Hlog. unfold setTarget.
  destruct (isDropTarget props w t); [done|].
  rewrite Henter, Hexit. simpl.
  destruct (targetRef w) as [old|], t as [new|]; simpl;
    rewrite ?openTarget_app, ?Hlog; simpl; rewrite ?openTarget_app, ?Hlog; simpl;
    try done; by rewrite decide_True.
Qed.

(** X1. [isDropTarget(candidate)] holds exactly when the candidate is the
    stored target, or both are item targets that name the same boundary
    between two neighbouring items.  Hence a missing target, a root target
    and an [on] target are matched by the very same target only. *)
Theorem isDropTarget_same_target_or_same_boundary (w : Store Handler)
    (candidate : option DropTarget) :
  (isDropTarget props w candidate = true <->
   candidate = targetRef w
   \/ exists d t,
        candidate = Some (ItemTarget d)
        /\ targetRef w = Some (ItemTarget t)
        /\ sameBoundary (Props.collection props) d t)
  /\ (isDropTarget props w None = true <-> targetRef w = None)
  /\ (isDropTarget props w (Some RootDropTarget) = true
      <-> targetRef w = Some RootDropTarget)
  /\ (forall k : Key,
         isDropTarget props w (Some (ItemTarget {| key := k; dropPosition := on |})) = true
         <-> targetRef w = Some (ItemTarget {| key := k; dropPosition := on |})).
Proof.
  split; [apply isDropTarget_cases|].
  split; [|split; [|intros k]]; rewrite isDropTarget_cases; split; auto.
  - intros [?|(d & t & ? & _)]; by simplify_eq.
  - intros [?|(d & t & ? & _)]; by simplify_eq.
  - intros [?|(d & t & ? & _ & _ & [(? & _)|(? & _)])]; by simplify_eq/=.
Qed.

(** X2. Being the current drop target is symmetric: with [x] stored, [y] is
    the drop target exactly when, with [y] stored, [x] is. *)
Theorem isDropTarget_symmetric (w : Store Handler) (x y : option DropTarget) :
  isDropTarget props (setTargetRef x w) y = isDropTarget props (setTargetRef y w) x.
Proof.
  assert (Hdir : forall u v : option DropTarget,
             isDropTarget props (setTargetRef u w) v = true ->
             isDropTarget props (setTargetRef v w) u = true).
  { intros u v. rewrite !isDropTarget_cases. simpl.
    intros [->|(d & t & -> & -> & Hsame)]; [by left|right].
    exists t, d. split; [done|]. split; [done|]. by apply sameBoundary_sym. }
  destruct (isDropTarget props (setTargetRef x w) y) eqn:Hxy.
  - symmetry. by apply Hdir.
  - destruct (isDropTarget props (setTargetRef y w) x) eqn:Hyx; [|done].
    apply Hdir in Hyx. congruence.
Qed.

(** X3. Once [setTarget(t)] has run, [t] is the current drop target, and
    running [setTarget(t)] again changes nothing: no second pair of
    notifications is sent. *)
Theorem setTarget_then_isDropTarget (w : Store Handler) (t : option DropTarget) :
  isDropTarget props (setTarget props t w) t = true
  /\ setTarget props t (setTarget props t w) = setTarget props t w.
Proof.
  split; [apply isDropTarget_setTarget|].
  unfold setTarget at 1. by rewrite isDropTarget_setTarget.
Qed.

(** X4. After any sequence of [setTarget] calls on a freshly mounted hook,
    the state cell and the ref cell hold the same target. *)
Theorem target_cells_stay_equal (ts : list (option DropTarget)) :
  target (setTargets props ts initialStore)
  = targetRef (setTargets props ts initialStore).
Proof.
  unfold setTargets.
  assert (Hgen : forall w : Store Handler,
             target w = targetRef w ->
             target (foldl (fun w t => setTarget props t w) w ts)
             = targetRef (foldl (fun w t => setTarget props t w) w ts)).
  { induction ts as [|t ts IH]; intros w Hsync; [done|].
    simpl. by apply IH, setTarget_keeps_cells_equal. }
  by apply Hgen.
Qed.

(** X5. When the host listens to both notifications, the calls made by any
    sequence of [setTarget] calls on a freshly mounted hook are nested
    properly: a target is entered only while none is entered, every exit
    is for the target entered last, and the target left entered at the end
    is the stored one. *)
Theorem notifications_are_nested (ts : list (option DropTarget)) :
  is_Some (Props.onDropEnter props) ->
  is_Some (Props.onDropExit props) ->
  openTarget None (calls (setTargets props ts initialStore))
  = Some (targetRef (setTargets props ts initialStore)).
Proof.
  intros Henter Hexit. unfold setTargets.
  assert (Hgen : forall w : Store Handler,
             openTarget None (calls w) = Some (targetRef w) ->
             openTarget None (calls (foldl (fun w t => setTarget props t w) w ts))
             = Some (targetRef (foldl (fun w t => setTarget props t w) w ts))).
  { induction ts as [|t ts IH]; intros w Hlog; [done|].
    simpl. by apply IH, setTarget_keeps_log_nested. }
  by apply Hgen.
Qed.

End Runs.

(** A pointer that enters [on a], crosses to [before c], leaves, comes back
    [after a] and wobbles over the boundary to [before b]. *)
Lemma notifications_are_nested_witness :
  openTarget None
    (calls (setTargets Fixtures.listeningProps
              [Some Fixtures.onA; Some Fixtures.beforeC; None;
               Some Fixtures.afterA; Some Fixtures.beforeB]
              initialStore))
  = Some (Some Fixtures.afterA)
  /\ length (calls (setTargets Fixtures.listeningProps
                      [Some Fixtures.onA; Some Fixtures.beforeC; None;
                       Some Fixtures.afterA; Some Fixtures.beforeB]
                      initialStore)) = 5%nat.
Proof.
  split; [|reflexivity].
  refine (notifications_are_nested Fixtures.listeningProps
            [Some Fixtures.onA; Some Fixtures.beforeC; None;
             Some Fixtures.afterA; Some Fixtures.beforeB] _ _);
    by eexists.
Defined.

End TargetRuns.

(* ===================================================================== *)
(** ** What the resolution policy permits, and what it ignores           *)
(* ===================================================================== *)

Module PolicyFacts.

Import DroppableCollectionState Runs.

#[local] Ltac to_prop :=
  rewrite ?orb_true_iff, ?andb_true_iff, ?negb_true_iff, ?andb_false_iff,
    ?bool_decide_eq_true, ?bool_decide_eq_false.

Section Facts.

Context {Handler : Type} (props : Props.t Handler) (e : DropOperationEvent.t).

(** X6. [getDropOperation] answers something other than [cancel] only when
    the type gate passes and the host either supplies the generic [onDrop]
    or one of the four validity conditions holds for the target. *)
Theorem only_permitted_drops_are_answered :
  getDropOperation props e <> Some cancel ->
  Contracts.typeGatePasses props e /\ Contracts.proceedsToSelection props e.
Proof.
  intros Hres. split.
  - apply ResolutionPolicy.acceptsTypes_gate.
    destruct (acceptsTypes _ _) eqn:Hgate; [done|].
    by apply ResolutionPolicy.getDropOperation_blocked in Hgate.
  - revert Hres. unfold getDropOperation, defaultGetDropOperation.
    destruct (acceptsTypes _ _); [|done].
    match goal with |- (if ?c then _ else _) <> _ -> _ => destruct c eqn:Hc end; [|done].
    intros _. revert Hc. to_prop.
    rewrite !ResolutionPolicy.truthy_is_Some, !ResolutionPolicy.beforeOrAfter_true.
    unfold Contracts.proceedsToSelection.
    intros [[[[H|H]|H]|H]|H].
    + by left.
    + destruct H as [[[Hon _] Hint] Hbetween]. right; left.
      by unfold Contracts.validInsert, Contracts.betweenItems.
    + destruct H as [[[Hon _] Hint] Hbetween]. right; right; left.
      by unfold Contracts.validReorder, Contracts.betweenItems.
    + destruct H as [[Hon Ht] Hint]. right; right; right; left.
      unfold Contracts.validRootDrop.
      by destruct (DropOperationEvent.target e).
    + right; right; right; right. unfold Contracts.validItemDrop.
      destruct H as [Hon H]. split; [done|].
      destruct (DropOperationEvent.target e) as [|[k p]]; [done|].
      revert H. simpl. to_prop. intros [[-> Hself] Hacc].
      exists k. split; [done|]. split.
      * intros [Hint Hin]. destruct Hself as [Hself|Hself]; congruence.
      * destruct (Props.shouldAcceptItemDrop props) as [accept|]; [right|by left].
        by exists accept.
Qed.

(** X7. A host without the generic [onDrop] whose [shouldAcceptItemDrop]
    refuses the target gets [cancel] for a drop on that item, even though
    [onItemDrop] is defined and the item is not among the dragged ones. *)
Theorem refused_item_drop_is_cancelled
    (accept : ItemDropTarget -> DragTypes -> bool) (k : Key) :
  Props.shouldAcceptItemDrop props = Some accept ->
  DropOperationEvent.target e = ItemTarget {| key := k; dropPosition := on |} ->
  accept {| key := k; dropPosition := on |} (DropOperationEvent.types e) = false ->
  Props.onDrop props = None ->
  getDropOperation props e = Some cancel.
Proof.
  intros Haccept Ht Hrefuse HonDrop.
  apply ResolutionPolicy.getDropOperation_declines; [done|..].
  - intros (_ & Hbetween & _). by eapply ResolutionPolicy.not_betweenItems_on.
  - intros (_ & Hbetween & _). by eapply ResolutionPolicy.not_betweenItems_on.
  - intros (_ & Hroot & _). congruence.
  - intros (_ & k' & Ht' & _ & [Hnone|(accept' & Hsome & Hyes)]); [congruence|].
    rewrite Ht in Ht'. simplify_eq. congruence.
Qed.

(** X8. [shouldAcceptItemDrop] is consulted for drops on an item only: for a
    root target and for a target before or after an item the answer is the
    same whatever acceptance predicate the host supplies. *)
Theorem shouldAcceptItemDrop_only_matters_on_items
    (accept : option (ItemDropTarget -> DragTypes -> bool)) :
  dropPosition_opt (Some (DropOperationEvent.target e)) <> Some on ->
  getDropOperation (withShouldAcceptItemDrop accept props) e = getDropOperation props e.
Proof.
  intros Hpos. unfold getDropOperation, defaultGetDropOperation. simpl.
  destruct (DropOperationEvent.target e) as [|[k p]]; [done|].
  simpl in *. by rewrite (bool_decide_eq_false_2 (p = on)) by congruence.
Qed.

(** X9. The dragged keys matter only to an internal drop on an item: for a
    drag from outside, and for any target that is not [on] an item, the
    answer does not depend on [draggingKeys]. *)
Theorem draggingKeys_only_matter_to_internal_item_drops (keys : gset Key) :
  DropOperationEvent.isInternal e = false
  \/ dropPosition_opt (Some (DropOperationEvent.target e)) <> Some on ->
  getDropOperation props (withDraggingKeys keys e) = getDropOperation props e.
Proof.
  intros Hcase. unfold getDropOperation, defaultGetDropOperation. simpl.
  destruct (DropOperationEvent.target e) as [|[k p]]; [done|].
  destruct Hcase as [-> | Hpos]; [done|].
  simpl in *. by rewrite (bool_decide_eq_false_2 (p = on)) by congruence.
Qed.

(** X10. [getDropOperation] returns [undefined] only if no custom callback
    is supplied and [allowedOperations] is empty; and without a custom
    callback every operation it returns is [cancel] or the first entry of
    [allowedOperations]. *)
Theorem answers_come_from_allowedOperations :
  (getDropOperation props e = None ->
   Props.getDropOperation props = None
   /\ DropOperationEvent.allowedOperations e = [])
  /\ (Props.getDropOperation props = None ->
      forall op : DropOperation,
        getDropOperation props e = Some op ->
        op = cancel
        \/ (head (DropOperationEvent.allowedOperations e) = Some op
            /\ op ∈ DropOperationEvent.allowedOperations e)).
Proof.
  unfold getDropOperation, defaultGetDropOperation.
  destruct (acceptsTypes _ _);
    [|split; [done|]; intros _ op; left; congruence].
  match goal with |- context [if ?c then _ else _] => destruct c end;
    [|split; [done|]; intros _ op; left; congruence].
  destruct (Props.getDropOperation props) as [custom|]; [done|].
  destruct (DropOperationEvent.allowedOperations e) as [|first rest]; simpl.
  - split; [done|]. intros _ op. done.
  - split; [done|]. intros _ op [= ->]. right. split; [done|]. apply list_elem_of_here.
Qed.

(** X11. Without the generic [onDrop], a drag from inside the collection is
    answered by [cancel] unless the host handles [onReorder] or
    [onItemDrop], and a drag from outside is answered by [cancel] unless
    the host handles [onInsert], [onRootDrop] or [onItemDrop]. *)
Theorem drags_need_a_matching_handler :
  Props.onDrop props = None ->
  (DropOperationEvent.isInternal e = true ->
   Props.onReorder props = None ->
   Props.onItemDrop props = None ->
   getDropOperation props e = Some cancel)
  /\ (DropOperationEvent.isInternal e = false ->
      Props.onInsert props = None ->
      Props.onRootDrop props = None ->
      Props.onItemDrop props = None ->
      getDropOperation props e = Some cancel).
Proof.
  intros HonDrop. split.
  - intros Hint Hre Hitem.
    apply ResolutionPolicy.getDropOperation_declines; [done|..].
    + intros (_ & _ & Hext). congruence.
    + intros ([? Hsome] & _). congruence.
    + intros (_ & _ & Hext). congruence.
    + intros ([? Hsome] & _). congruence.
  - intros Hext Hins Hroot Hitem.
    apply ResolutionPolicy.getDropOperation_declines; [done|..].
    + intros ([? Hsome] & _). congruence.
    + intros (_ & _ & Hint). congruence.
    + intros ([? Hsome] & _). congruence.
    + intros ([? Hsome] & _). congruence.
Qed.

End Facts.

Lemma only_permitted_drops_are_answered_witness :
  Contracts.typeGatePasses Fixtures.reorderProps
    (Fixtures.internalDragOfA Fixtures.beforeB [move; copy])
  /\ Contracts.proceedsToSelection Fixtures.reorderProps
       (Fixtures.internalDragOfA Fixtures.beforeB [move; copy]).
Proof.
  apply (only_permitted_drops_are_answered Fixtures.reorderProps
           (Fixtures.internalDragOfA Fixtures.beforeB [move; copy])).
  vm_compute. discriminate.
Defined.

(** A host that accepts item drops of plain text only, asked about HTML
    dragged onto [b]. *)
Lemma refused_item_drop_is_cancelled_witness :
  getDropOperation
    (withShouldAcceptItemDrop (Some (fun _ types => has types "text/plain"))
       (Fixtures.dropProps false))
    (Fixtures.externalHtmlDrag (Fixtures.itemTarget Fixtures.b on) [move; copy])
  = Some cancel.
Proof.
  apply (refused_item_drop_is_cancelled
           (withShouldAcceptItemDrop (Some (fun _ types => has types "text/plain"))
              (Fixtures.dropProps false))
           (Fixtures.externalHtmlDrag (Fixtures.itemTarget Fixtures.b on) [move; copy])
           (fun _ types => has types "text/plain") Fixtures.b);
    [reflexivity | reflexivity | by vm_compute | reflexivity].
Defined.

Lemma shouldAcceptItemDrop_only_matters_on_items_witness :
  getDropOperation
    (withShouldAcceptItemDrop (Some (fun _ _ => false)) Fixtures.reorderProps)
    (Fixtures.internalDragOfA Fixtures.beforeB [move; copy])
  = getDropOperation Fixtures.reorderProps
      (Fixtures.internalDragOfA Fixtures.beforeB [move; copy]).
Proof.
  apply (shouldAcceptItemDrop_only_matters_on_items Fixtures.reorderProps
           (Fixtures.internalDragOfA Fixtures.beforeB [move; copy])
           (Some (fun _ _ => false))).
  discriminate.
Defined.

Lemma draggingKeys_only_matter_to_internal_item_drops_witness :
  getDropOperation (Fixtures.dropProps false)
    (withDraggingKeys {[ Fixtures.b ]}
       (Fixtures.externalHtmlDrag (Fixtures.itemTarget Fixtures.b on) [move; copy]))
  = getDropOperation (Fixtures.dropProps false)
      (Fixtures.externalHtmlDrag (Fixtures.itemTarget Fixtures.b on) [move; copy]).
Proof.
  apply (draggingKeys_only_matter_to_internal_item_drops (Fixtures.dropProps false)
           (Fixtures.externalHtmlDrag (Fixtures.itemTarget Fixtures.b on) [move; copy])
           {[ Fixtures.b ]}).
  left. reflexivity.
Defined.

Lemma answers_come_from_allowedOperations_witness :
  move = cancel
  \/ (head [move; copy] = Some move /\ move ∈ [move; copy]).
Proof.
  apply (proj2 (answers_come_from_allowedOperations Fixtures.reorderProps
                  (Fixtures.internalDragOfA Fixtures.beforeB [move; copy]))
           eq_refl move eq_refl).
Defined.

(** A host that only reorders, asked about a drag from outside; a host
    that only takes root drops, asked about its own items. *)
Lemma drags_need_a_matching_handler_witness :
  getDropOperation Fixtures.noProps Fixtures.internalRootDrop = Some cancel
  /\ getDropOperation Fixtures.reorderProps
       (Fixtures.externalHtmlDrag Fixtures.beforeB [move; copy]) = Some cancel.
Proof.
  split.
  - apply (proj1 (drags_need_a_matching_handler Fixtures.noProps
                    Fixtures.internalRootDrop eq_refl)); reflexivity.
  - apply (proj2 (drags_need_a_matching_handler Fixtures.reorderProps
                    (Fixtures.externalHtmlDrag Fixtures.beforeB [move; copy]) eq_refl));
      reflexivity.
Defined.

End PolicyFacts.

(* ===================================================================== *)
(** ** [TableView]: default widths, layout options, views and menus      *)
(* ===================================================================== *)

Module TableFacts.

Import TableView TableParts.

(** X12. [getDefaultWidth] gives no width exactly to the columns that are
    neither header-less nor selection cells; every width it gives lies
    between 36 and 48; a header-less column gets the header-less width
    (one more with a divider) even if it is also a selection cell; and the
    large scale never gives less than the medium one. *)
Theorem getDefaultWidth_cases (scale : Scale) (column : ColumnFlags) :
  (getDefaultWidth scale column = None <->
   truthyFlag (hideHeader column) = false
   /\ truthyFlag (isSelectionCell column) = false)
  /\ (forall w : Z, getDefaultWidth scale column = Some w -> (36 <= w <= 48)%Z)
  /\ (truthyFlag (hideHeader column) = true ->
      getDefaultWidth scale column
      = Some (DEFAULT_HIDE_HEADER_CELL_WIDTH scale
              + (if truthyFlag (showDivider column) then 1 else 0))%Z)
  /\ (forall w w' : Z,
         getDefaultWidth medium column = Some w ->
         getDefaultWidth large column = Some w' ->
         (w < w')%Z).
Proof.
  unfold getDefaultWidth.
  destruct (truthyFlag (hideHeader column)), (truthyFlag (isSelectionCell column)),
    (truthyFlag (showDivider column)), scale; simpl;
    repeat split; try done; try (intros [? ?]; done);
    intros; simplify_eq; lia.
Qed.

(** X13. The layout gets fixed heights or estimated heights, never both and
    never neither: with [overflowMode = 'wrap'] only the estimated row and
    heading heights are set, otherwise only the fixed ones; the value is
    the same either way, and a missing density counts as regular. *)
Theorem layoutOptions_fixed_or_estimated (overflowMode : option OverflowMode)
    (density : option Density) (scale : Scale) :
  let options := layoutOptions overflowMode density scale in
  let rowValue := ROW_HEIGHTS (default regular density) scale in
  let headingValue := DEFAULT_HEADER_HEIGHT scale in
  (overflowMode = Some wrap ->
   rowHeight options = None /\ estimatedRowHeight options = Some rowValue
   /\ headingHeight options = None
   /\ estimatedHeadingHeight options = Some headingValue)
  /\ (overflowMode <> Some wrap ->
      rowHeight options = Some rowValue /\ estimatedRowHeight options = None
      /\ headingHeight options = Some headingValue
      /\ estimatedHeadingHeight options = None)
  /\ layoutOptions overflowMode None scale
     = layoutOptions overflowMode (Some regular) scale
  /\ (32 <= rowValue <= 60)%Z.
Proof.
  intros options rowValue headingValue. subst options rowValue headingValue.
  unfold layoutOptions. split; [|split; [|split]].
  - intros ->. by rewrite bool_decide_eq_true_2.
  - intros Hmode. by rewrite bool_decide_eq_false_2.
  - done.
  - destruct density as [[]|], scale; simpl; lia.
Qed.

Section Views.

Context {Element : Type} (collectionSize : Z)
  (renderEmptyState : option (unit -> option Element)).

(** The view types that [renderView] knows. *)
Lemma renderView_undefined (type : string) (node : GridNode) :
  renderView collectionSize renderEmptyState type node = ViewUndefined <->
  type ∉ ["header"; "rowgroup"; "section"; "row"; "headerrow"; "cell";
          "placeholder"; "column"; "loader"; "empty"].
Proof.
  unfold renderView. rewrite !not_elem_of_cons.
  case_bool_decide as Hstructural.
  { split; [done|]. intros (? & ? & ? & ? & ? & _).
    repeat (apply elem_of_cons in Hstructural as [Hstructural|Hstructural];
            [congruence|]).
    by apply elem_of_nil in Hstructural. }
  rewrite !not_elem_of_cons in Hstructural.
  repeat (case_bool_decide;
          [ split; [intros Hview; repeat case_match; discriminate
                   | intros Hout; exfalso; tauto]
          | ]).
  split; [intros _ | done]. tauto.
Qed.

(** X14. [renderView] builds a [ResizableTableColumnHeader] for a node
    exactly when the view type is ['column'] and the column is not a
    selection cell, has its header shown, and allows resizing: no other
    column ever reaches that header's width check. *)
Theorem resizable_header_only_for_plain_resizable_columns
    (type : string) (node column : GridNode) :
  renderView collectionSize renderEmptyState type node
  = ResizableTableColumnHeaderView column
  <-> type = "column"
      /\ column = node
      /\ truthyFlag (node_isSelectionCell (props node)) = false
      /\ truthyFlag (node_hideHeader (props node)) = false
      /\ truthyFlag (node_allowsResizing (props node)) = true.
Proof.
  unfold renderView. split.
  - destruct (truthyFlag (node_isSelectionCell (props node))) eqn:Hselection,
      (truthyFlag (node_hideHeader (props node))) eqn:Hhidden,
      (truthyFlag (node_allowsResizing (props node))) eqn:Hresizing;
      repeat case_bool_decide; intros Hview; repeat case_match; by simplify_eq.
  - intros (-> & -> & -> & -> & ->). done.
Qed.

(** X15. [renderView] has no default branch: it returns [undefined] exactly
    for the view types outside the ten it handles, and [null] for the five
    structural ones. *)
Theorem renderView_known_types (type : string) (node : GridNode) :
  (renderView collectionSize renderEmptyState type node = ViewUndefined <->
   type ∉ ["header"; "rowgroup"; "section"; "row"; "headerrow"; "cell";
           "placeholder"; "column"; "loader"; "empty"])
  /\ (type ∈ ["header"; "rowgroup"; "section"; "row"; "headerrow"] ->
      renderView collectionSize renderEmptyState type node = ViewNull).
Proof.
  split; [apply renderView_undefined|].
  intros Hin. unfold renderView. by rewrite bool_decide_eq_true_2.
Qed.

End Views.

(** X16. Every entry of the column menu has an action: selecting the id of
    an offered option makes at least one call; the sort options are
    offered only if the column allows sorting; the resize option is always
    offered, last, and starts the resize before entering resize mode; a key
    that is not one of the three ids does nothing. *)
Theorem column_menu_matches_its_actions (format : string -> string)
    (allowsSorting : option bool) (column : Key) :
  (forall option : MenuOption,
      Some option ∈ menuItems format allowsSorting ->
      onMenuSelect column (KeyString (id option)) <> [])
  /\ (forall (option : MenuOption) (direction : SortDirection),
         Some option ∈ menuItems format allowsSorting ->
         Sort column direction ∈ onMenuSelect column (KeyString (id option)) ->
         truthyFlag allowsSorting = true)
  /\ last (menuItems format allowsSorting)
     = Some (Some {| label := format "resizeColumn"; id := "resize" |})
  /\ onMenuSelect column (KeyString "resize")
     = [OnColumnResizeStart column; SetIsInResizeMode true]
  /\ (forall key : Key,
         key ∉ [KeyString "sort-asc"; KeyString "sort-desc"; KeyString "resize"] ->
         onMenuSelect column key = []).
Proof.
  unfold menuItems.
  split; [|split; [|split; [|split]]].
  - intros option Hin.
    destruct (truthyFlag allowsSorting);
      repeat (apply elem_of_cons in Hin as [Hin|Hin]; [by simplify_eq|]);
      by apply elem_of_nil in Hin.
  - intros option direction Hin Hsort.
    destruct (truthyFlag allowsSorting); [done|].
    repeat (apply elem_of_cons in Hin as [Hin|Hin]; [simplify_eq|]);
      [|by apply elem_of_nil in Hin].
    vm_compute in Hsort.
    repeat (apply elem_of_cons in Hsort as [Hsort|Hsort]; [discriminate|]).
    by apply elem_of_nil in Hsort.
  - by destruct (truthyFlag allowsSorting).
  - done.
  - intros key Hout. unfold onMenuSelect.
    repeat (case_bool_decide; [exfalso; apply Hout; subst key; repeat constructor|]).
    done.
Qed.

End TableFacts.

(* ===================================================================== *)
(** ** [TableView] and [TableVirtualizer]: viewport and resizer position *)
(* ===================================================================== *)

Module ScrollingFacts.

Import TableScrolling.

(** X17. [onVisibleRectChange] of [TableView] reacts to size changes only:
    a rectangle with the stored width and height changes nothing (the
    stored position stays as it was); after any call the stored width and
    height are those reported; and reporting the same rectangle twice is
    the same as reporting it once. *)
Theorem onVisibleRectChange_tracks_size_only (body : option BodyMetrics)
    (e : Rect) (st : ViewportState) :
  (width e = width (viewport st) ->
   height e = height (viewport st) ->
   onVisibleRectChange body e st = st)
  /\ (width (viewport (onVisibleRectChange body e st)) = width e
      /\ height (viewport (onVisibleRectChange body e st)) = height e)
  /\ onVisibleRectChange body e (onVisibleRectChange body e st)
     = onVisibleRectChange body e st.
Proof.
  unfold onVisibleRectChange. split; [|split].
  - intros -> ->. by rewrite !bool_decide_eq_true_2.
  - destruct (bool_decide (width (viewport st) = width e)) eqn:Hw,
      (bool_decide (height (viewport st) = height e)) eqn:Hh; simpl;
      try (by destruct body).
    by apply bool_decide_eq_true in Hw, Hh.
  - destruct (bool_decide (width (viewport st) = width e)
              && bool_decide (height (viewport st) = height e)) eqn:Hsame.
    + by rewrite Hsame.
    + destruct body; simpl; by rewrite !bool_decide_eq_true_2.
Qed.

(** A scroll of a table that keeps its size. *)
Lemma onVisibleRectChange_tracks_size_only_witness :
  onVisibleRectChange
    (Some {| clientWidth := 300; offsetWidth := 315;
             clientHeight := 200; offsetHeight := 200 |})
    {| x := 40; y := 120; width := 0; height := 0 |} initialViewport
  = initialViewport.
Proof.
  apply (proj1 (onVisibleRectChange_tracks_size_only
                  (Some {| clientWidth := 300; offsetWidth := 315;
                           clientHeight := 200; offsetHeight := 200 |})
                  {| x := 40; y := 120; width := 0; height := 0 |} initialViewport));
    reflexivity.
Defined.

Lemma isChain_snoc (getKeyBefore : option Key -> option Key) (columns : list Key)
    (column : Key) (prev : option Key) :
  isChain getKeyBefore prev (columns ++ [column]) ->
  isChain getKeyBefore prev columns
  /\ getKeyBefore (Some column)
     = match last columns with Some nearest => Some nearest | None => prev end.
Proof.
  revert prev. induction columns as [|first rest IH]; intros prev; simpl.
  - by intros [-> _].
  - intros [Hfirst Hrest]. destruct (IH _ Hrest) as [Hchain Hbefore].
    split; [done|]. rewrite Hbefore. destruct rest as [|second rest]; [done|].
    rewrite last_cons_cons.
    destruct (last (second :: rest)) eqn:Hlast; [done|].
    by apply last_None in Hlast.
Qed.

Lemma keysBeforeLoop_chain (getKeyBefore : option Key -> option Key)
    (columns : list Key) :
  forall (column : Key) (fuel : nat) (pushed : list (option Key)),
    isChain getKeyBefore None (columns ++ [column]) ->
    (length columns < fuel)%nat ->
    keysBeforeLoop fuel getKeyBefore (Some column) pushed
    = Some (pushed ++ Some column :: (Some <$> rev columns)).
Proof.
  induction columns as [|previous columns IH] using rev_ind;
    intros column fuel pushed Hchain Hfuel.
  - destruct fuel as [|fuel]; [simpl in Hfuel; lia|].
    simpl in *. destruct Hchain as [-> _]. done.
  - destruct fuel as [|fuel]; [simpl in Hfuel; lia|].
    apply isChain_snoc in Hchain as [Hchain Hbefore].
    rewrite last_snoc in Hbefore.
    simpl. rewrite Hbefore.
    rewrite length_app in Hfuel. simpl in Hfuel.
    rewrite (IH previous fuel _ Hchain) by lia.
    by rewrite rev_app_distr, <- app_assoc.
Qed.

Lemma foldl_widths (getColumnWidth : option Key -> Z) (keys : list (option Key))
    (start : Z) :
  foldl (fun acc key => acc + getColumnWidth key)%Z start keys
  = (start + foldr (fun key acc => getColumnWidth key + acc) 0 keys)%Z.
Proof.
  revert start. induction keys as [|key keys IH]; intros start; simpl; [lia|].
  rewrite IH. lia.
Qed.

Lemma rightEdge_snoc (getColumnWidth : option Key -> Z) (columns : list Key)
    (column : Key) :
  rightEdge getColumnWidth (columns ++ [column])
  = (rightEdge getColumnWidth columns + getColumnWidth (Some column))%Z.
Proof.
  unfold rightEdge. induction columns as [|first rest IH]; simpl; lia.
Qed.

Lemma widths_of_reversed (getColumnWidth : option Key -> Z) (columns : list Key) :
  foldr (fun key acc => getColumnWidth key + acc)%Z 0%Z (Some <$> rev columns)
  = rightEdge getColumnWidth columns.
Proof.
  induction columns as [|first rest IH]; [done|].
  simpl. rewrite fmap_app, foldr_app. simpl.
  change (first :: rest) with ([first] ++ rest).
  assert (Hshift : forall (keys : list (option Key)) (z : Z),
             foldr (fun key acc => getColumnWidth key + acc)%Z z keys
             = (foldr (fun key acc => getColumnWidth key + acc) 0 keys + z)%Z).
  { induction keys as [|k keys IHk]; intros z; simpl; [lia|]. rewrite IHk. lia. }
  rewrite Hshift, IH. unfold rightEdge. simpl. lia.
Qed.

Section Resizer.

Context (getKeyBefore : option Key -> option Key).

(** X18. When the collection links the columns [columns ++ [column]] as a
    chain (nothing before the first, each other one right after its
    predecessor), the loop started at [column] ends within
    [length columns + 1] iterations with [column] followed by the columns
    before it, nearest first.  When nothing comes before [null], the loop
    started at [null] (no column is being resized) ends at once with
    [[null]].  When a column is its own predecessor the loop never
    ends. *)
Theorem keysBefore_walks_back_to_the_first_column :
  (forall (columns : list Key) (column : Key) (fuel : nat),
      isChain getKeyBefore None (columns ++ [column]) ->
      (length columns < fuel)%nat ->
      keysBeforeLoop fuel getKeyBefore (Some column) []
      = Some (Some column :: (Some <$> rev columns)))
  /\ (forall fuel : nat,
         getKeyBefore None = None ->
         keysBeforeLoop (S fuel) getKeyBefore None [] = Some [None])
  /\ (forall (column : Key) (fuel : nat) (pushed : list (option Key)),
         getKeyBefore (Some column) = Some column ->
         keysBeforeLoop fuel getKeyBefore (Some column) pushed = None).
Proof.
  split; [|split].
  - intros columns column fuel Hchain Hfuel.
    by rewrite (keysBeforeLoop_chain getKeyBefore columns column fuel []).
  - intros fuel Hnull. simpl. by rewrite Hnull.
  - intros column fuel. induction fuel as [|fuel IH]; intros pushed Hself; [done|].
    simpl. rewrite Hself. by apply IH.
Qed.

(** X19. For columns linked as a chain, the resizer position computed from
    the keys the loop collects is the right edge of the column being
    resized (the sum of the widths of the columns up to and including it)
    minus 2. *)
Theorem resizerPosition_is_right_edge_minus_two
    (getColumnWidth : option Key -> Z) (columns : list Key) (column : Key)
    (fuel : nat) :
  isChain getKeyBefore None (columns ++ [column]) ->
  (length columns < fuel)%nat ->
  resizerPosition getColumnWidth
    <$> keysBeforeLoop fuel getKeyBefore (Some column) []
  = Some (rightEdge getColumnWidth (columns ++ [column]) - 2)%Z.
Proof.
  intros Hchain Hfuel.
  rewrite (keysBeforeLoop_chain getKeyBefore columns column fuel [] Hchain Hfuel).
  simpl. unfold resizerPosition. f_equal. simpl.
  rewrite foldl_widths, widths_of_reversed, rightEdge_snoc. lia.
Qed.

End Resizer.

(** Resizing [c] in the table [a; b; c]; no column resized; a column that
    is its own predecessor. *)
Lemma keysBefore_walks_back_to_the_first_column_witness :
  keysBeforeLoop 3 Fixtures.columnBefore (Some Fixtures.c) []
  = Some [Some Fixtures.c; Some Fixtures.b; Some Fixtures.a]
  /\ keysBeforeLoop 1 Fixtures.columnBefore None [] = Some [None]
  /\ keysBeforeLoop 1000 (fun _ => Some Fixtures.a) (Some Fixtures.a) [] = None.
Proof.
  split; [|split].
  - apply (proj1 (keysBefore_walks_back_to_the_first_column Fixtures.columnBefore)
             [Fixtures.a; Fixtures.b] Fixtures.c 3%nat);
      [repeat split | simpl; lia].
  - apply (proj1 (proj2 (keysBefore_walks_back_to_the_first_column
                           Fixtures.columnBefore)) 0%nat).
    reflexivity.
  - apply (proj2 (proj2 (keysBefore_walks_back_to_the_first_column
                           (fun _ => Some Fixtures.a)))).
    reflexivity.
Defined.

(** Resizing [b] in the table [a; b; c] with widths 100, 150 and 200. *)
Lemma resizerPosition_is_right_edge_minus_two_witness :
  resizerPosition Fixtures.columnWidth
    <$> keysBeforeLoop 2 Fixtures.columnBefore (Some Fixtures.b) []
  = Some 248%Z.
Proof.
  apply (resizerPosition_is_right_edge_minus_two Fixtures.columnBefore
           Fixtures.columnWidth [Fixtures.a] Fixtures.b 2%nat);
    [repeat split | simpl; lia].
Defined.

(** X20. [onVisibleRectChange] of [TableVirtualizer] always reports the
    table width and then the visible rectangle.  It asks for more rows
    after that, and only then, when the table is not loading, [onLoadMore]
    is supplied and the rectangle's top is past the content height minus
    two viewport heights; so it never asks while a load is in progress, and
    it always asks (when idle, with [onLoadMore]) if the content is shorter
    than two viewports. *)
Theorem onLoadMore_only_when_idle_near_the_end (loadingState : option string)
    (hasOnLoadMore : bool) (contentHeight : Z) (rect : Rect) :
  let calls :=
    onVirtualizerVisibleRectChange loadingState hasOnLoadMore contentHeight rect in
  (OnLoadMore ∈ calls <->
   loadingState <> Some "loading" /\ loadingState <> Some "loadingMore"
   /\ hasOnLoadMore = true
   /\ (contentHeight - height rect * 2 < y rect)%Z)
  /\ (calls = [SetTableWidth (width rect); SetVisibleRect rect]
      \/ calls = [SetTableWidth (width rect); SetVisibleRect rect; OnLoadMore])
  /\ (loadingState <> Some "loading" -> loadingState <> Some "loadingMore" ->
      hasOnLoadMore = true ->
      (0 <= y rect)%Z -> (contentHeight < height rect * 2)%Z ->
      calls = [SetTableWidth (width rect); SetVisibleRect rect; OnLoadMore]).
Proof.
  intros calls. subst calls. unfold onVirtualizerVisibleRectChange, isLoading.
  assert (Hnot : forall l : list VirtualizerCall,
             l = [SetTableWidth (width rect); SetVisibleRect rect] ->
             OnLoadMore ∉ l).
  { intros l -> Hin.
    repeat (apply elem_of_cons in Hin as [Hin|Hin]; [discriminate|]).
    by apply elem_of_nil in Hin. }
  destruct (decide (loadingState = Some "loading")) as [Hl|Hl];
    [rewrite (bool_decide_eq_true_2 _ Hl)|rewrite (bool_decide_eq_false_2 _ Hl)];
    simpl.
  { split; [|split; [by left|done]].
    split; [intros Hin; by apply (Hnot _ eq_refl) in Hin|tauto]. }
  destruct (decide (loadingState = Some "loadingMore")) as [Hm|Hm];
    [rewrite (bool_decide_eq_true_2 _ Hm)|rewrite (bool_decide_eq_false_2 _ Hm)];
    simpl.
  { split; [|split; [by left|done]].
    split; [intros Hin; by apply (Hnot _ eq_refl) in Hin|tauto]. }
  destruct hasOnLoadMore; simpl.
  2:{ split; [|split; [by left|done]].
      split; [intros Hin; by apply (Hnot _ eq_refl) in Hin|intros (_ & _ & ? & _); done]. }
  destruct (Z.ltb_spec (contentHeight - height rect * 2) (y rect)) as [Hpast|Hbefore].
  - split; [|split; [by right|done]].
    split; [done|]. intros _. do 2 apply list_elem_of_further. apply list_elem_of_here.
  - split; [|split; [by left|intros; lia]].
    split; [intros Hin; by apply (Hnot _ eq_refl) in Hin|intros (_ & _ & _ & ?); lia].
Qed.

(** An idle table whose content (300) is shorter than two viewports of
    height 200. *)
Lemma onLoadMore_only_when_idle_near_the_end_witness :
  onVirtualizerVisibleRectChange (Some "idle") true 300
    {| x := 0; y := 0; width := 640; height := 200 |}
  = [SetTableWidth 640;
     SetVisibleRect {| x := 0; y := 0; width := 640; height := 200 |};
     OnLoadMore].
Proof.
  apply (proj2 (proj2 (onLoadMore_only_when_idle_near_the_end (Some "idle") true 300
                         {| x := 0; y := 0; width := 640; height := 200 |})));
    [discriminate | discriminate | reflexivity | simpl; lia | simpl; lia].
Defined.

End ScrollingFacts.

(* ===================================================================== *)
(** ** [useDraggableItem]: labels, descriptions and the Alt key          *)
(* ===================================================================== *)

Module DraggableItemFacts.

Import DraggableItem.

Section Item.

Context {Listener : Type} (props : DraggableItemProps) (env : Environment Listener).

(** X21. The message key of the description is always one of seven known
    keys, and when at most one key is dragged it is never one of the
    "selected" ones, even if the item is selected. *)
Theorem description_message_is_known :
  descriptionMessage props env ∈ descriptionMessages
  /\ ((numKeysForDrag env <= 1)%nat ->
      descriptionMessage props env
      ∈ ["dragDescriptionKeyboard"; "dragDescriptionKeyboardAlt";
         "dragDescriptionLongPress"; "dragDescriptionVirtual"]).
Proof.
  unfold descriptionMessage, isSelected, descriptionMessages.
  split.
  - destruct (modality env), (1 <? numKeysForDrag env)%nat, (isSelectedKey env),
      (truthyFlag (hasAction props)); simpl; repeat constructor.
  - intros Hfew. apply Nat.ltb_ge in Hfew. rewrite Hfew. simpl.
    destruct (modality env), (truthyFlag (hasAction props)); simpl;
      repeat constructor.
Qed.

(** X22. Exactly one of the description and the drag button label is
    computed: the label when the item has a drag button, the description
    otherwise.  The button props returned always carry [isDisabled] and
    [aria-label] as computed here, whatever [useDrag] put under these
    names. *)
Theorem label_or_description :
  (truthyFlag (hasDragButton props) = true ->
   description props env = None /\ is_Some (dragButtonLabel props env))
  /\ (truthyFlag (hasDragButton props) = false ->
      is_Some (description props env) /\ dragButtonLabel props env = None)
  /\ dragButtonProps (useDraggableItem props env) !! "aria-label"
     = Some (optionalStr (dragButtonLabel props env))
  /\ dragButtonProps (useDraggableItem props env) !! "isDisabled"
     = Some (Flag (isDisabled env)).
Proof.
  unfold description, dragButtonLabel, useDraggableItem. simpl.
  split; [|split; [|split]].
  - intros ->. simpl. split; [done|]. by destruct (isSelected env).
  - intros ->. simpl. split; [|done]. by destruct (isSelected env).
  - by rewrite lookup_insert_eq.
  - by rewrite lookup_insert_ne, lookup_insert_eq.
Qed.

(** X23. The drag props returned hold nothing but properties of [useDrag],
    properties of [useDescription] and the two key listeners; for a
    disabled item they are empty, while the button props say the item is
    disabled. *)
Theorem dragProps_come_from_useDrag_and_useDescription :
  dom (dragProps (useDraggableItem props env))
  ⊆ dom (useDrag_dragProps env)
    ∪ dom (useDescription env (description props env))
    ∪ {[ "onKeyDownCapture"; "onKeyUpCapture" ]}
  /\ (isDisabled env = true ->
      dragProps (useDraggableItem props env) = ∅
      /\ dragButtonProps (useDraggableItem props env) !! "isDisabled"
         = Some (Flag true)).
Proof.
  unfold useDraggableItem. simpl. split.
  - destruct (isDisabled env); [rewrite dom_empty_L; apply empty_subseteq|].
    set (assigned := if truthyString (description props env) then _ else _).
    assert (Hassigned : dom assigned
                        ⊆ dom (useDrag_dragProps env)
                          ∪ dom (useDescription env (description props env))).
    { subst assigned. destruct (truthyString _).
      - rewrite dom_union_L. apply union_least;
          [apply union_subseteq_r | apply union_subseteq_l].
      - apply union_subseteq_l. }
    destruct (negb (truthyFlag (hasDragButton props)) && truthyFlag (hasAction props)).
    + rewrite !dom_insert_L.
      assert (Hdeleted : dom (if bool_decide (modality env = touch)
                             then delete "aria-describedby" assigned else assigned)
                         ⊆ dom assigned).
      { destruct (bool_decide (modality env = touch)); [|done].
        rewrite dom_delete_L. apply subseteq_difference_l. done. }
      intros name Hin.
      apply elem_of_union in Hin as [Hin|Hin];
        [apply elem_of_union_r, elem_of_union_r; exact Hin|].
      apply elem_of_union in Hin as [Hin|Hin];
        [apply elem_of_union_r, elem_of_union_l; exact Hin|].
      apply elem_of_union_l, Hassigned, Hdeleted, Hin.
    + intros name Hin. apply elem_of_union_l, Hassigned, Hin.
  - intros Hdisabled. rewrite Hdisabled.
    split; [done|]. by rewrite lookup_insert_ne, lookup_insert_eq.
Qed.

(** X24. When the item has an action and no drag button, the key listeners
    returned only act with the Alt key held: without Alt they call nothing;
    with Alt they call the listener that [useDrag] supplied; and if [useDrag]
    supplied none, a key event with Alt ends in a [TypeError]. *)
Theorem key_listeners_require_alt (name : string) :
  name = "onKeyDownCapture" \/ name = "onKeyUpCapture" ->
  truthyFlag (hasDragButton props) = false ->
  truthyFlag (hasAction props) = true ->
  isDisabled env = false ->
  useDescription env (description props env) !! name = None ->
  exists v : PropValue Listener,
    dragProps (useDraggableItem props env) !! name = Some v
    /\ fire v false = Called []
    /\ (forall l : Listener,
           useDrag_dragProps env !! name = Some (Listen l) ->
           fire v true = Called [l])
    /\ (useDrag_dragProps env !! name = None -> fire v true = ThrowsTypeError).
Proof.
  intros Hname HnoButton Haction Henabled Hfree.
  unfold useDraggableItem. simpl. rewrite HnoButton, Haction, Henabled. simpl.
  set (assigned := if truthyString (description props env) then _ else _).
  assert (Hassigned : assigned !! name = useDrag_dragProps env !! name).
  { subst assigned. destruct (truthyString _); [|done]. by rewrite lookup_union_r. }
  exists (AltKeyOnly (default Undefined (assigned !! name))).
  split.
  - destruct Hname as [-> | ->].
    + by rewrite lookup_insert_ne, lookup_insert_eq.
    + by rewrite lookup_insert_eq.
  - rewrite Hassigned. split; [done|]. split.
    + by intros l ->.
    + by intros ->.
Qed.

(** X25. With touch modality, an action and no drag button, the props
    returned never carry [aria-describedby]: the long-press description is
    removed. *)
Theorem touch_action_drops_description :
  modality env = touch ->
  truthyFlag (hasDragButton props) = false ->
  truthyFlag (hasAction props) = true ->
  dragProps (useDraggableItem props env) !! "aria-describedby" = None.
Proof.
  intros Htouch HnoButton Haction.
  unfold useDraggableItem. simpl. rewrite HnoButton, Haction, Htouch. simpl.
  destruct (isDisabled env); [done|].
  by rewrite !lookup_insert_ne, lookup_delete_eq.
Qed.

(** X26. The hook leaves the other props of [useDrag] alone: for an enabled
    item, every property other than [aria-describedby] and the two key
    listeners that [useDescription] does not set is returned as [useDrag]
    gave it. *)
Theorem other_dragProps_pass_through (name : string) :
  isDisabled env = false ->
  name ∉ ["aria-describedby"; "onKeyDownCapture"; "onKeyUpCapture"] ->
  useDescription env (description props env) !! name = None ->
  dragProps (useDraggableItem props env) !! name = useDrag_dragProps env !! name.
Proof.
  intros Henabled Hname Hfree.
  rewrite !not_elem_of_cons in Hname. destruct Hname as (Hd & Hdown & Hup & _).
  unfold useDraggableItem. simpl. rewrite Henabled.
  set (assigned := if truthyString (description props env) then _ else _).
  assert (Hassigned : assigned !! name = useDrag_dragProps env !! name).
  { subst assigned. destruct (truthyString _); [|done]. by rewrite lookup_union_r. }
  destruct (negb (truthyFlag (hasDragButton props)) && truthyFlag (hasAction props));
    [|done].
  rewrite !lookup_insert_ne by done.
  destruct (bool_decide (modality env = touch)); [|done].
  by rewrite lookup_delete_ne.
Qed.

(** X27. An enabled item with a drag button gets the props of [useDrag]
    unchanged: no description is attached and the key listeners are not
    wrapped, whether or not the item has an action. *)
Theorem drag_button_leaves_dragProps_unchanged :
  truthyFlag (hasDragButton props) = true ->
  isDisabled env = false ->
  dragProps (useDraggableItem props env) = useDrag_dragProps env.
Proof.
  intros Hbutton Henabled. unfold useDraggableItem, description. simpl.
  by rewrite Hbutton, Henabled.
Qed.

End Item.

Lemma description_message_is_known_witness :
  descriptionMessage Fixtures.itemWithAction (Fixtures.draggableEnv false keyboard)
  ∈ ["dragDescriptionKeyboard"; "dragDescriptionKeyboardAlt";
     "dragDescriptionLongPress"; "dragDescriptionVirtual"].
Proof.
  apply (proj2 (description_message_is_known Fixtures.itemWithAction
                  (Fixtures.draggableEnv false keyboard))).
  simpl. lia.
Defined.

Lemma label_or_description_witness :
  description Fixtures.itemWithDragButton (Fixtures.draggableEnv false keyboard) = None
  /\ is_Some (dragButtonLabel Fixtures.itemWithDragButton
                (Fixtures.draggableEnv false keyboard))
  /\ is_Some (description Fixtures.itemWithAction (Fixtures.draggableEnv false keyboard)).
Proof.
  pose proof (label_or_description Fixtures.itemWithDragButton
                (Fixtures.draggableEnv false keyboard)) as (Hbutton & _).
  pose proof (label_or_description Fixtures.itemWithAction
                (Fixtures.draggableEnv false keyboard)) as (_ & Hplain & _).
  destruct (Hbutton eq_refl) as [Hnone Hlabel].
  destruct (Hplain eq_refl) as [Hdescription _].
  split; [exact Hnone|]. split; [exact Hlabel | exact Hdescription].
Defined.

Lemma dragProps_come_from_useDrag_and_useDescription_witness :
  dragProps (useDraggableItem Fixtures.itemWithAction (Fixtures.draggableEnv true touch))
  = ∅.
Proof.
  apply (proj2 (dragProps_come_from_useDrag_and_useDescription Fixtures.itemWithAction
                  (Fixtures.draggableEnv true touch))).
  reflexivity.
Defined.

(** The key-down listener of an item with an action, under keyboard
    modality. *)
Lemma key_listeners_require_alt_witness :
  exists v : PropValue string,
    dragProps (useDraggableItem Fixtures.itemWithAction
                 (Fixtures.draggableEnv false keyboard)) !! "onKeyDownCapture"
    = Some v
    /\ fire v false = Called []
    /\ fire v true = Called ["useDrag.onKeyDownCapture"].
Proof.
  destruct (key_listeners_require_alt Fixtures.itemWithAction
              (Fixtures.draggableEnv false keyboard) "onKeyDownCapture")
    as (v & Hv & Hquiet & Halt & _);
    [by left | reflexivity | reflexivity | reflexivity | by vm_compute |].
  exists v. split; [exact Hv|]. split; [exact Hquiet|].
  apply Halt. by vm_compute.
Defined.

Lemma touch_action_drops_description_witness :
  dragProps (useDraggableItem Fixtures.itemWithAction (Fixtures.draggableEnv false touch))
    !! "aria-describedby" = None
  /\ is_Some (Fixtures.describedBy
                (description Fixtures.itemWithAction (Fixtures.draggableEnv false touch))
              !! "aria-describedby").
Proof.
  split; [|eexists; vm_compute; reflexivity].
  apply (touch_action_drops_description Fixtures.itemWithAction
           (Fixtures.draggableEnv false touch)); reflexivity.
Defined.

Lemma other_dragProps_pass_through_witness :
  dragProps (useDraggableItem Fixtures.itemWithAction
               (Fixtures.draggableEnv false keyboard)) !! "draggable"
  = Some (Str "true").
Proof.
  rewrite (other_dragProps_pass_through Fixtures.itemWithAction
             (Fixtures.draggableEnv false keyboard) "draggable").
  - by vm_compute.
  - reflexivity.
  - rewrite !not_elem_of_cons. repeat split; try discriminate. apply not_elem_of_nil.
  - by vm_compute.
Defined.

Lemma drag_button_leaves_dragProps_unchanged_witness :
  dragProps (useDraggableItem Fixtures.itemWithDragButton
               (Fixtures.draggableEnv false keyboard))
  = useDrag_dragProps (Fixtures.draggableEnv false keyboard).
Proof.
  apply (drag_button_leaves_dragProps_unchanged Fixtures.itemWithDragButton
           (Fixtures.draggableEnv false keyboard)); reflexivity.
Defined.

End DraggableItemFacts.
